(** * Architecture visualizer: the analyzer, the diagram renderer and the
    command line of [repo_viz.py] and [viz-cli.py]

  The program walks a repository for Python files, calls external analyzers
  (the [ast] parser, radon, bandit) on each one, stores one [Component] per
  file stem, and renders the stored components as a Mermaid diagram or a
  JSON dump.

  Strings are [string] (ASCII); Python's [int] is [Z]; Python's [float] is
  the primitive [float]; a [dict] is an association list in insertion
  order; a [set] of strings is a duplicate-free list; exceptions are the
  [Raise] branch of [result]. *)

From Stdlib Require Import List ZArith Lia Bool Arith Permutation.
From Stdlib Require Import Ascii String DecimalString.
From Stdlib Require Import PrimFloat.
From Equations Require Import Equations.
Import ListNotations.

Set Warnings "-register-all".

Open Scope string_scope.
Open Scope list_scope.

(** ** Python string operations used by the program *)

Module PyStr.

(** [c.lower()] on one ASCII character. *)
Definition lower_ascii (c : ascii) : ascii :=
  let n := nat_of_ascii c in
  if (65 <=? n)%nat && (n <=? 90)%nat then ascii_of_nat (n + 32) else c.

(** [s.lower()]. *)
Fixpoint lower (s : string) : string :=
  match s with
  | EmptyString => EmptyString
  | String c s' => String (lower_ascii c) (lower s')
  end.

(** [s.startswith(p)]. *)
Definition startswith (s p : string) : bool := String.prefix p s.

(** [sub in s]: [sub] occurs in [s] at some position. *)
Fixpoint contains (sub s : string) : bool :=
  String.prefix sub s ||
  match s with
  | EmptyString => false
  | String _ s' => contains sub s'
  end.

(** [any(x in s for x in subs)]. *)
Definition contains_any (subs : list string) (s : string) : bool :=
  existsb (fun x => contains x s) subs.

(** [s.split('.')[0]]: the text before the first dot. *)
Fixpoint first_segment (s : string) : string :=
  match s with
  | EmptyString => EmptyString
  | String c s' =>
      if Ascii.eqb c "."%char then EmptyString else String c (first_segment s')
  end.

(** The class [\w] restricted to ASCII: letters, digits and underscore. *)
Definition is_word (c : ascii) : bool :=
  let n := nat_of_ascii c in
  ((48 <=? n)%nat && (n <=? 57)%nat) ||
  ((65 <=? n)%nat && (n <=? 90)%nat) ||
  ((97 <=? n)%nat && (n <=? 122)%nat) ||
  (n =? 95)%nat.

(** [re.sub(r'\W+', '_', s)]: every maximal run of non-word characters
    becomes one underscore.  [in_run] tells that the previous character
    already belonged to the run being replaced. *)
Fixpoint sub_nonword (in_run : bool) (s : string) : string :=
  match s with
  | EmptyString => EmptyString
  | String c s' =>
      if is_word c then String c (sub_nonword false s')
      else if in_run then sub_nonword true s'
      else String "_"%char (sub_nonword true s')
  end.

Definition node_id (name : string) : string := sub_nonword false name.

(** [str(n)] for an [int]. *)
Definition str_of_int (n : Z) : string := NilZero.string_of_int (Z.to_int n).

(** [sep.join(parts)]. *)
Fixpoint join (sep : string) (parts : list string) : string :=
  match parts with
  | [] => EmptyString
  | [p] => p
  | p :: rest => p ++ sep ++ join sep rest
  end.

(** A Python string is truthy when it is not empty. *)
Definition truthy (s : string) : bool :=
  match s with EmptyString => false | _ => true end.

Definition newline : string := String (ascii_of_nat 10) EmptyString.

End PyStr.


(** ** Python containers *)

Module PyDict.

(** A [dict] with string keys, kept in insertion order. *)
Definition dict (V : Type) : Type := list (string * V).

(** [d[k] = v]: an existing key keeps its position, a new key goes last. *)
Fixpoint set {V} (d : dict V) (k : string) (v : V) : dict V :=
  match d with
  | [] => [(k, v)]
  | (k', v') :: d' =>
      if String.eqb k' k then (k, v) :: d' else (k', v') :: set d' k v
  end.

(** [k in d]. *)
Definition contains {V} (k : string) (d : dict V) : bool :=
  existsb (fun kv => String.eqb (fst kv) k) d.

Definition keys {V} (d : dict V) : list string := map fst d.
Definition values {V} (d : dict V) : list V := map snd d.

(** [not d]. *)
Definition is_empty {V} (d : dict V) : bool :=
  match d with [] => true | _ => false end.

End PyDict.

Module PySet.

(** A [set] of strings: a list without duplicates.  Python leaves the
    iteration order of a set unspecified; the model iterates in the order of
    first insertion. *)
Definition set_ : Type := list string.

Definition mem (x : string) (s : set_) : bool :=
  existsb (String.eqb x) s.

(** [s.add(x)]. *)
Definition add (s : set_) (x : string) : set_ :=
  if mem x s then s else s ++ [x].

End PySet.

(** ** Exceptions *)

Inductive exn : Type :=
| ValueError (msg : string)
| GitCommandError
| OSError
| SyntaxError
| AttributeError.

Inductive result (A : Type) : Type :=
| Ok (a : A)
| Raise (e : exn).
Arguments Ok {A} a.
Arguments Raise {A} e.

Definition bind {A B} (r : result A) (k : A -> result B) : result B :=
  match r with
  | Ok a => k a
  | Raise e => Raise e
  end.

Notation "x <- r ;; k" := (bind r (fun x => k))
  (at level 61, r at next level, right associativity).

(** Run [f] on every element, stopping at the first exception. *)
Fixpoint mapM {A B} (f : A -> result B) (l : list A) : result (list B) :=
  match l with
  | [] => Ok []
  | a :: l' => b <- f a ;; bs <- mapM f l' ;; Ok (b :: bs)
  end.

(** ** The syntax tree of Python's [ast] module, as far as the analyzers
    look at it *)

Module Ast.

(** The node classes the analyzers tell apart.  [Alias] is the [alias] node
    of an imported name, [Ctx] the expression context ([Load], [Store],
    [Del]) of a name or an attribute, [args] of a [Call] its positional
    arguments followed by its [keyword] nodes, and [Other] any other
    statement or expression with its child nodes. *)
Inductive node : Type :=
| Module (body : list node)
| Import (names : list string)
| ImportFrom (module : option string) (names : list string)
| Alias (name : string)
| Call (func : node) (args : list node)
| Name (id : string)
| Attribute (value : node) (attr : string)
| Ctx
| Other (children : list node).

(** [ast.iter_child_nodes]. *)
Definition iter_child_nodes (n : node) : list node :=
  match n with
  | Module body => body
  | Import names => map Alias names
  | ImportFrom _ names => map Alias names
  | Alias _ => []
  | Call func args => func :: args
  | Name _ => [Ctx]
  | Attribute value _ => [value; Ctx]
  | Ctx => []
  | Other children => children
  end.

Fixpoint node_size (n : node) : nat :=
  match n with
  | Module body => S (list_sum (map node_size body))
  | Import names => S (List.length names)
  | ImportFrom _ names => S (List.length names)
  | Alias _ => 1
  | Call func args => S (node_size func + list_sum (map node_size args))
  | Name _ => 2
  | Attribute value _ => S (S (node_size value))
  | Ctx => 1
  | Other children => S (list_sum (map node_size children))
  end.

Definition queue_size (todo : list node) : nat := list_sum (map node_size todo).

(** [ast.walk]: the loop
    [todo = deque([node]); while todo: node = todo.popleft();
     todo.extend(iter_child_nodes(node)); yield node]. *)
Equations? walk_queue (todo : list node) : list node
  by wf (queue_size todo) lt :=
walk_queue [] := [];
walk_queue (n :: todo) := n :: walk_queue (todo ++ iter_child_nodes n).
Proof.
  unfold queue_size. rewrite map_app, list_sum_app. simpl.
  enough (list_sum (map node_size (iter_child_nodes n)) < node_size n) by lia.
  assert (aliases : forall names,
             list_sum (map node_size (map Alias names)) = List.length names).
  { induction names as [|a names IH]; simpl; [reflexivity | now rewrite IH]. }
  destruct n; simpl; rewrite ?aliases; lia.
Qed.

Definition walk (tree : node) : list node := walk_queue [tree].

(** [getattr(n, 'id', '')] and [getattr(n, 'attr', '')]. *)
Definition getattr_id (n : node) : string :=
  match n with Name id => id | _ => "" end.

Definition getattr_attr (n : node) : string :=
  match n with Attribute _ attr => attr | _ => "" end.

End Ast.

(** ** The data classes of [repo_viz.py] *)

Module SecurityIssue.
Record t : Type := mk {
  severity : string;
  issue_type : string;
  filename : string;
  line : Z;
  description : string
}.
End SecurityIssue.

Module PerformanceMetric.
Record t : Type := mk {
  complexity : Z;
  maintainability : float;
  io_operations : Z;
  db_operations : Z;
  network_calls : Z
}.
End PerformanceMetric.

Module DockerLayer.
Record t : Type := mk {
  command : string;
  size : Z;
  dependencies : PySet.set_
}.
End DockerLayer.

(** A [pathlib.Path]: its text and the [stem] property (the final path
    component without its suffix). *)
Record Path : Type := mkPath {
  path_str : string;
  stem : string
}.

Record Component : Type := mkComponent {
  name : string;
  type : string;
  path : Path;
  performance : option PerformanceMetric.t;
  security_issues : list SecurityIssue.t;
  test_coverage : float;
  docker_layers : list DockerLayer.t;
  dependencies : PySet.set_;
  api_endpoints : PySet.set_;
  external_urls : PySet.set_
}.

(** [Component(name=.., type=.., path=.., dependencies=..)]: the other fields
    take the defaults of the data class. *)
Definition new_Component (name type : string) (path : Path)
    (dependencies : PySet.set_) : Component :=
  {| name := name; type := type; path := path;
     performance := None; security_issues := []; test_coverage := 0%float;
     docker_layers := []; dependencies := dependencies;
     api_endpoints := []; external_urls := [] |}.

(** [component.performance = p]. *)
Definition set_performance (c : Component) (p : PerformanceMetric.t) : Component :=
  {| name := name c; type := type c; path := path c;
     performance := Some p; security_issues := security_issues c;
     test_coverage := test_coverage c; docker_layers := docker_layers c;
     dependencies := dependencies c; api_endpoints := api_endpoints c;
     external_urls := external_urls c |}.

(** [component.security_issues = l]. *)
Definition set_security_issues (c : Component) (l : list SecurityIssue.t) : Component :=
  {| name := name c; type := type c; path := path c;
     performance := performance c; security_issues := l;
     test_coverage := test_coverage c; docker_layers := docker_layers c;
     dependencies := dependencies c; api_endpoints := api_endpoints c;
     external_urls := external_urls c |}.

(** What the outside world is asked to do, in order. *)
Inductive effect : Type :=
| Mkdtemp (dir : string)
| CloneFrom (repo_url dir : string)
| DockerFromEnv
| WriteText (file text : string)
| Echo (text : string).

(** An issue as bandit reports it. *)
Record BanditIssue : Type := mkBanditIssue {
  b_severity : string;
  b_test_id : string;
  b_fname : string;
  b_lineno : Z;
  b_text : string
}.

Inductive DockerClient : Type := docker_client_handle.

Record ArchitectureAnalyzer : Type := mkAnalyzer {
  repo_path : string;
  temp_dir : option string;
  components : PyDict.dict Component;
  docker_client : option DockerClient
}.

Definition set_components (self : ArchitectureAnalyzer)
    (cs : PyDict.dict Component) : ArchitectureAnalyzer :=
  {| repo_path := repo_path self; temp_dir := temp_dir self;
     components := cs; docker_client := docker_client self |}.

(** A value handed to [json.dumps]: what [dataclasses.asdict] builds. *)
Inductive pyval : Type :=
| VNone
| VInt (n : Z)
| VFloat (x : float)
| VStr (s : string)
| VPath (p : Path)
| VSet (s : PySet.set_)
| VList (l : list pyval)
| VDict (d : list (string * pyval)).

(** ** The analyzer *)

(** The libraries and the file system the program calls. *)
Record World : Type := mkWorld {
  (** [Path.read_text] and [open(..).read()]: [None] when the file cannot be
      read. *)
  read_text : Path -> option string;
  (** [ast.parse]: [None] on a syntax error. *)
  ast_parse : string -> option Ast.node;
  (** radon's [cc_visit]: the complexity of every block of the file. *)
  cc_visit : string -> list Z;
  (** radon's [mi_visit(content, multi=True)]. *)
  mi_visit : string -> float;
  (** bandit run on one file: [b_mgr.get_issue_list()]. *)
  get_issue_list : Path -> list BanditIssue;
  (** [Path(dir).rglob("*.py")], in the order the file system yields them. *)
  rglob_py : string -> list Path;
  (** The directory [tempfile.mkdtemp()] creates. *)
  mkdtemp : string;
  (** Whether [git.Repo.clone_from(url, dir)] succeeds. *)
  clone_from : string -> string -> bool;
  (** [docker.from_env()]: [None] when it raises. *)
  docker_from_env : option DockerClient;
  (** [json.dumps(obj, indent=2, default=str)]. *)
  json_dumps : pyval -> string
}.

Section Analyzer.

Variable world : World.

Definition read (file_path : Path) : result string :=
  match read_text world file_path with
  | Some content => Ok content
  | None => Raise OSError
  end.

Definition parse (content : string) : result Ast.node :=
  match ast_parse world content with
  | Some tree => Ok tree
  | None => Raise SyntaxError
  end.

(** Truth value of an [Optional[str]] argument. *)
Definition truthy_opt (s : option string) : bool :=
  match s with
  | Some s => PyStr.truthy s
  | None => false
  end.

Definition str_or_empty (s : option string) : string :=
  match s with Some s => s | None => "" end.

(** The tail of [__init__], common to the two successful branches. *)
Definition init_fields (repo_path : string) (temp_dir : option string)
    : ArchitectureAnalyzer :=
  {| repo_path := repo_path; temp_dir := temp_dir;
     components := []; docker_client := docker_from_env world |}.

Definition __init__ (repo_url local_path : option string)
    : list effect * result ArchitectureAnalyzer :=
  if truthy_opt repo_url then
    let url := str_or_empty repo_url in
    if clone_from world url (mkdtemp world) then
      ([Mkdtemp (mkdtemp world); CloneFrom url (mkdtemp world); DockerFromEnv],
       Ok (init_fields (mkdtemp world) (Some (mkdtemp world))))
    else ([Mkdtemp (mkdtemp world); CloneFrom url (mkdtemp world)], Raise GitCommandError)
  else if truthy_opt local_path then
    ([DockerFromEnv], Ok (init_fields (str_or_empty local_path) None))
  else ([], Raise (ValueError "Either repo_url or local_path must be provided")).

Definition _detect_component_type (file_path : Path) : result string :=
  content <- read file_path ;;
  let content := PyStr.lower content in
  let name := PyStr.lower (stem file_path) in
  if PyStr.contains "test" name then Ok "test"
  else if PyStr.contains_any ["fastapi"; "flask"; "django"] content then Ok "api"
  else if PyStr.contains "model" name then Ok "model"
  else Ok "module".

(** One step of the loop over [ast.walk(tree)] in [_extract_dependencies]. *)
Definition add_import (deps : PySet.set_) (node : Ast.node) : PySet.set_ :=
  match node with
  | Ast.Import names =>
      fold_left (fun deps name => PySet.add deps (PyStr.first_segment name))
                names deps
  | Ast.ImportFrom (Some module) _ =>
      if PyStr.truthy module then PySet.add deps (PyStr.first_segment module)
      else deps
  | _ => deps
  end.

Definition _extract_dependencies (file_path : Path) : result PySet.set_ :=
  content <- read file_path ;;
  tree <- parse content ;;
  Ok (fold_left add_import (Ast.walk tree) []).

(** The three filters of [analyze_performance]. *)
Definition is_io_call (n : Ast.node) : bool :=
  match n with
  | Ast.Call func _ =>
      PyStr.contains_any ["open"; "read"; "write"] (Ast.getattr_id func)
  | _ => false
  end.

Definition is_db_call (n : Ast.node) : bool :=
  match n with
  | Ast.Call func _ =>
      PyStr.contains_any ["execute"; "query"; "commit"] (Ast.getattr_attr func)
  | _ => false
  end.

Definition is_network_call (n : Ast.node) : bool :=
  match n with
  | Ast.Call func _ =>
      PyStr.contains_any ["get"; "post"; "request"] (Ast.getattr_attr func)
  | _ => false
  end.

(** [len([n for n in ast.walk(tree) if p(n)])]. *)
Definition count_calls (p : Ast.node -> bool) (tree : Ast.node) : Z :=
  Z.of_nat (List.length (filter p (Ast.walk tree))).

(** radon parses the text with [ast.parse] itself, so [cc_visit] raises the
    syntax error that [parse] reports. *)
Definition analyze_performance (file_path : Path) : result PerformanceMetric.t :=
  content <- read file_path ;;
  tree <- parse content ;;
  let complexity := fold_right Z.add 0%Z (cc_visit world content) in
  let maintainability := mi_visit world content in
  let io_ops := count_calls is_io_call tree in
  let db_ops := count_calls is_db_call tree in
  let network_calls := count_calls is_network_call tree in
  Ok (PerformanceMetric.mk complexity maintainability io_ops db_ops network_calls).

Definition analyze_security (file_path : Path) : list SecurityIssue.t :=
  map (fun issue =>
         SecurityIssue.mk (b_severity issue) (b_test_id issue) (b_fname issue)
                          (b_lineno issue) (b_text issue))
      (get_issue_list world file_path).

(** The body of the loop of [analyze] for a file that is not skipped. *)
Definition analyze_file (file : Path) : result Component :=
  type <- _detect_component_type file ;;
  dependencies <- _extract_dependencies file ;;
  let component := new_Component (stem file) type file dependencies in
  performance <- analyze_performance file ;;
  let component := set_performance component performance in
  let component := set_security_issues component (analyze_security file) in
  Ok component.

(** The loop of [analyze] over the files still to visit; [cs] is
    [self.components].  An exception leaves the entries stored so far. *)
Fixpoint analyze_loop (files : list Path) (cs : PyDict.dict Component)
    : PyDict.dict Component * result unit :=
  match files with
  | [] => (cs, Ok tt)
  | file :: rest =>
      if PyStr.contains "test" (PyStr.lower (stem file)) then analyze_loop rest cs
      else
        match analyze_file file with
        | Ok component => analyze_loop rest (PyDict.set cs (stem file) component)
        | Raise e => (cs, Raise e)
        end
  end.

Definition analyze (self : ArchitectureAnalyzer)
    : ArchitectureAnalyzer * result unit :=
  let (cs, r) := analyze_loop (rglob_py world (repo_path self)) (components self) in
  (set_components self cs, r).

(** *** The diagram renderer *)

Definition styles : list (string * string) :=
  [("high", "fill:#f44336,color:white");
   ("medium", "fill:#fb8c00,color:white");
   ("low", "fill:#81c784,color:black")].

Definition classDef (entry : string * string) : string :=
  ("    classDef " ++ fst entry ++ " " ++ snd entry)%string.

(** The three tests of the [layers] dictionary. *)
Definition in_client_layer (c : Component) : bool :=
  PyStr.contains "client" (PyStr.lower (name c)).

Definition in_api_layer (c : Component) : bool :=
  PyStr.contains "api" (PyStr.lower (name c)).

Definition in_core_layer (c : Component) : bool :=
  PyStr.contains_any ["core"; "type"; "base"] (PyStr.lower (name c)).

Definition layers (cs : PyDict.dict Component) : list (string * list Component) :=
  [("Client", filter in_client_layer (PyDict.values cs));
   ("API", filter in_api_layer (PyDict.values cs));
   ("Core", filter in_core_layer (PyDict.values cs))].

Definition style_of (complexity : Z) : string :=
  if (complexity >? 50)%Z then ":::high"
  else if (complexity >? 20)%Z then ":::medium"
  else ":::low".

(** The line appended for one component of a layer; a component without a
    performance record makes [comp.performance.complexity] raise. *)
Definition node_line (comp : Component) : result string :=
  match performance comp with
  | None => Raise AttributeError
  | Some p =>
      let node_id := PyStr.node_id (name comp) in
      let style := style_of (PerformanceMetric.complexity p) in
      Ok ("        " ++ node_id ++ "[" ++ name comp ++ "<br/>CC:"
          ++ PyStr.str_of_int (PerformanceMetric.complexity p) ++ "]" ++ style)%string
  end.

(** The lines appended for one entry of [layers]. *)
Definition layer_block (entry : string * list Component) : result (list string) :=
  let (layer, comps) := entry in
  match comps with
  | [] => Ok []
  | _ =>
      nodes <- mapM node_line comps ;;
      Ok (("    subgraph " ++ layer ++ " Layer")%string :: nodes
          ++ [("    end" ++ PyStr.newline)%string])
  end.

(** The pairs [(name, dep)] for which the last loop appends a line. *)
Definition relationships (cs : PyDict.dict Component) : list (string * string) :=
  flat_map
    (fun item =>
       map (fun dep => (fst item, dep))
           (filter (fun dep => PyDict.contains dep cs) (dependencies (snd item))))
    cs.

Definition edge_line (edge : string * string) : string :=
  ("    " ++ PyStr.node_id (fst edge) ++ " --> " ++ PyStr.node_id (snd edge))%string.

(** The list [mermaid] at the end of [generate_mermaid]. *)
Definition mermaid_lines (cs : PyDict.dict Component) : result (list string) :=
  blocks <- mapM layer_block (layers cs) ;;
  Ok (["graph TD"; "    %% Style definitions"]
      ++ map classDef styles
      ++ List.concat blocks
      ++ map edge_line (relationships cs)).

Definition generate_mermaid (self : ArchitectureAnalyzer)
    : ArchitectureAnalyzer * result string :=
  let (self, r) :=
    if PyDict.is_empty (components self) then analyze self else (self, Ok tt) in
  match r with
  | Raise e => (self, Raise e)
  | Ok _ =>
      (self,
       mermaid <- mermaid_lines (components self) ;;
       Ok (PyStr.join PyStr.newline mermaid))
  end.

End Analyzer.

(** ** The command line of [viz-cli.py] *)

Module Cli.

Inductive Format : Type := mermaid | json.

(** [dataclasses.asdict]. *)
Definition asdict_performance (p : PerformanceMetric.t) : pyval :=
  VDict [("complexity", VInt (PerformanceMetric.complexity p));
         ("maintainability", VFloat (PerformanceMetric.maintainability p));
         ("io_operations", VInt (PerformanceMetric.io_operations p));
         ("db_operations", VInt (PerformanceMetric.db_operations p));
         ("network_calls", VInt (PerformanceMetric.network_calls p))].

Definition asdict_issue (i : SecurityIssue.t) : pyval :=
  VDict [("severity", VStr (SecurityIssue.severity i));
         ("issue_type", VStr (SecurityIssue.issue_type i));
         ("filename", VStr (SecurityIssue.filename i));
         ("line", VInt (SecurityIssue.line i));
         ("description", VStr (SecurityIssue.description i))].

Definition asdict_layer (l : DockerLayer.t) : pyval :=
  VDict [("command", VStr (DockerLayer.command l));
         ("size", VInt (DockerLayer.size l));
         ("dependencies", VSet (DockerLayer.dependencies l))].

Definition asdict (comp : Component) : pyval :=
  VDict [("name", VStr (name comp));
         ("type", VStr (type comp));
         ("path", VPath (path comp));
         ("performance",
          match performance comp with
          | Some p => asdict_performance p
          | None => VNone
          end);
         ("security_issues", VList (map asdict_issue (security_issues comp)));
         ("test_coverage", VFloat (test_coverage comp));
         ("docker_layers", VList (map asdict_layer (docker_layers comp)));
         ("dependencies", VSet (dependencies comp));
         ("api_endpoints", VSet (api_endpoints comp));
         ("external_urls", VSet (external_urls comp))].

(** [target.startswith(('http://', 'https://'))]. *)
Definition is_url (target : string) : bool :=
  PyStr.startswith target "http://" || PyStr.startswith target "https://".

(** The object handed to [json.dumps] in the [json] branch. *)
Definition json_object (analyzer : ArchitectureAnalyzer) : pyval :=
  VDict [("components",
          VDict (map (fun item => (fst item, asdict (snd item)))
                     (components analyzer)))].

Section Cli.

Variable world : World.

Definition analyze (target : string) (output : option string) (format : Format)
    : list effect * result unit :=
  let (effects, r) :=
    __init__ world
      (if is_url target then Some target else None)
      (if negb (is_url target) then Some target else None) in
  match r with
  | Raise e => (effects, Raise e)
  | Ok analyzer =>
      let r :=
        match format with
        | mermaid => snd (generate_mermaid world analyzer)
        | json => Ok (json_dumps world (json_object analyzer))
        end in
      match r with
      | Raise e => (effects, Raise e)
      | Ok result =>
          match output with
          | Some file =>
              if PyStr.truthy file then
                (effects ++ [WriteText file result;
                             Echo ("Output written to " ++ file)%string], Ok tt)
              else (effects ++ [Echo result], Ok tt)
          | None => (effects ++ [Echo result], Ok tt)
          end
      end
  end.

End Cli.

End Cli.

(** ** Definitions used to state the properties *)

(** The number of nodes of a tree that satisfy [p], counted along the
    structure of the tree. *)
Fixpoint count_tree (p : Ast.node -> bool) (n : Ast.node) : nat :=
  (if p n then 1 else 0) +
  match n with
  | Ast.Module body => list_sum (map (count_tree p) body)
  | Ast.Import names =>
      list_sum (map (fun a => if p (Ast.Alias a) then 1 else 0) names)
  | Ast.ImportFrom _ names =>
      list_sum (map (fun a => if p (Ast.Alias a) then 1 else 0) names)
  | Ast.Alias _ => 0
  | Ast.Call func args => count_tree p func + list_sum (map (count_tree p) args)
  | Ast.Name _ => if p Ast.Ctx then 1 else 0
  | Ast.Attribute value _ => count_tree p value + (if p Ast.Ctx then 1 else 0)
  | Ast.Ctx => 0
  | Ast.Other children => list_sum (map (count_tree p) children)
  end.

(** The text of a node line, given the style suffix. *)
Definition node_text (comp : Component) (cc : Z) (style : string) : string :=
  ("        " ++ PyStr.node_id (name comp) ++ "[" ++ name comp ++ "<br/>CC:"
   ++ PyStr.str_of_int cc ++ "]" ++ style)%string.

(** The kinds a stored record can have. *)
Definition stored_kind (c : Component) : Prop :=
  (type c = "api" \/ type c = "model" \/ type c = "module") /\ type c <> "test".

(** The analyzer objects a program can hold: built by [__init__], then
    passed through [analyze] and [generate_mermaid] any number of times,
    whether the call returns or raises. *)
Inductive reachable (world : World) : ArchitectureAnalyzer -> Prop :=
| reach_init repo_url local_path effects self :
    __init__ world repo_url local_path = (effects, Ok self) ->
    reachable world self
| reach_analyze self :
    reachable world self ->
    reachable world (fst (analyze world self))
| reach_generate self :
    reachable world self ->
    reachable world (fst (generate_mermaid world self)).

(** The components for which [generate_mermaid] appends a node line, in the
    order of the lines. *)
Definition rendered_nodes (cs : PyDict.dict Component) : list Component :=
  flat_map snd (layers cs).

(** How many of the three layer tests a component passes. *)
Definition layer_matches (c : Component) : nat :=
  (if in_client_layer c then 1 else 0) + (if in_api_layer c then 1 else 0)
  + (if in_core_layer c then 1 else 0).

(** How many components of a list are called [n]. *)
Definition count_named (n : string) (l : list Component) : nat :=
  List.length (filter (fun c => String.eqb (name c) n) l).

(** The node lines are the lines indented by eight spaces. *)
Definition is_node_line (l : string) : bool := String.prefix "        " l.

(** The edge lines are the lines with an arrow that are not node lines. *)
Definition is_edge_line (l : string) : bool :=
  PyStr.contains " --> " l && negb (is_node_line l).

(** The claim's list of layer substrings, tested at once. *)
Definition in_some_layer (c : Component) : bool :=
  PyStr.contains_any ["client"; "api"; "core"; "type"; "base"]
                     (PyStr.lower (name c)).

(** Every stored record has a performance record, as [analyze] leaves it. *)
Definition with_performance (cs : PyDict.dict Component) : Prop :=
  Forall (fun c => performance c <> None) (PyDict.values cs).

(** *** A small repository for the examples *)

Module Demo.

Definition core_py : Path := mkPath "repo/core.py" "core".
Definition test_core_py : Path := mkPath "repo/test_core.py" "test_core".

(** [import os.path], [from helpers import f], [get()],
    [session.get(url)], [fh.read()]. *)
Definition tree : Ast.node :=
  Ast.Module
    [Ast.Import ["os.path"];
     Ast.ImportFrom (Some "helpers") ["f"];
     Ast.Other [Ast.Call (Ast.Name "get") []];
     Ast.Other [Ast.Call (Ast.Attribute (Ast.Name "session") "get")
                         [Ast.Name "url"]];
     Ast.Other [Ast.Call (Ast.Attribute (Ast.Name "fh") "read") []]].

(** A file that only holds the statement [get()]. *)
Definition bare_get : Ast.node :=
  Ast.Module [Ast.Other [Ast.Call (Ast.Name "get") []]].

(** A world in which every file parses to [tree]. *)
Definition world_with (tree : Ast.node) : World :=
  {| read_text := fun _ => Some "import os.path
from helpers import f
get()
session.get(url)
fh.read()
";
     ast_parse := fun _ => Some tree;
     cc_visit := fun _ => [12%Z; 8%Z];
     mi_visit := fun _ => 100%float;
     get_issue_list := fun _ => [];
     rglob_py := fun dir =>
       if String.eqb dir "repo" then [core_py; test_core_py] else [];
     mkdtemp := "/tmp/tmpclone";
     clone_from := fun _ _ => true;
     docker_from_env := None;
     json_dumps := fun _ => "{}" |}.

Definition world : World := world_with tree.

Definition perf (cc : Z) : PerformanceMetric.t :=
  PerformanceMetric.mk cc 100%float 0 0 0.

Definition component (n : string) (cc : Z) (deps : PySet.set_) : Component :=
  set_performance (new_Component n "module" (mkPath n n) deps) (perf cc).

(** A map whose only entry passes two layer tests. *)
Definition overlapping : PyDict.dict Component :=
  [("api_client", component "api_client" 3 [])].

(** A map with an entry outside every layer that depends on a stored
    component and on a third-party module. *)
Definition dangling : PyDict.dict Component :=
  [("utils", component "utils" 3 ["core"; "requests"]);
   ("core", component "core" 21 [])].

Definition analyzer (cs : PyDict.dict Component) : ArchitectureAnalyzer :=
  {| repo_path := "repo"; temp_dir := None; components := cs;
     docker_client := None |}.

End Demo.

(** ** Teardown and the container analyzer *)

(** What [__del__] asks of the file system. *)
Inductive cleanup : Type :=
| Rmtree (dir : string).

(** [__del__]: [if self.temp_dir: shutil.rmtree(self.temp_dir, ...)]. *)
Definition __del__ (self : ArchitectureAnalyzer) : list cleanup :=
  match temp_dir self with
  | Some dir => if PyStr.truthy dir then [Rmtree dir] else []
  | None => []
  end.

(** The two regular expressions of [_extract_docker_deps]. *)
Module PyRe.

(** [\s] on ASCII: tab to carriage return, the four separators and space. *)
Definition is_space (c : ascii) : bool :=
  let n := nat_of_ascii c in
  ((9 <=? n)%nat && (n <=? 13)%nat) || ((28 <=? n)%nat && (n <=? 32)%nat).

(** The classes [[\w\-=<>\.]] and [[\w\-]]. *)
Definition pip_char (c : ascii) : bool :=
  PyStr.is_word c ||
  existsb (Ascii.eqb c) ["-"%char; "="%char; "<"%char; ">"%char; "."%char].

Definition apt_char (c : ascii) : bool :=
  PyStr.is_word c || Ascii.eqb c "-"%char.

(** The longest prefix of characters of a class, and what follows it. *)
Fixpoint take_while (p : ascii -> bool) (s : string) : string :=
  match s with
  | EmptyString => EmptyString
  | String c s' => if p c then String c (take_while p s') else EmptyString
  end.

Fixpoint drop_while (p : ascii -> bool) (s : string) : string :=
  match s with
  | EmptyString => EmptyString
  | String c s' => if p c then drop_while p s' else s
  end.

Fixpoint drop (n : nat) (s : string) : string :=
  match n, s with
  | S n', String _ s' => drop n' s'
  | _, _ => s
  end.

(** A match of [lit\s+(cls+)] at the start of [s]: the group and the length
    of the whole match.  Both repetitions are greedy, and since no space is
    in the class, giving spaces back cannot turn a failure into a match. *)
Definition match_at (lit : string) (cls : ascii -> bool) (s : string)
    : option (string * nat) :=
  if String.prefix lit s then
    let rest := drop (String.length lit) s in
    let spaces := take_while is_space rest in
    let group := take_while cls (drop_while is_space rest) in
    match spaces, group with
    | EmptyString, _ => None
    | _, EmptyString => None
    | _, _ =>
        Some (group,
              String.length lit + String.length spaces + String.length group)
    end
  else None.

(** [re.findall(lit\s+(cls+), s)]: the groups of the matches found from
    left to right, a search resuming where the last match ended.  [skip]
    counts the characters of [s] that still belong to the last match. *)
Fixpoint findall_from (lit : string) (cls : ascii -> bool) (skip : nat)
    (s : string) : list string :=
  match s with
  | EmptyString => []
  | String _ s' =>
      match skip with
      | S k => findall_from lit cls k s'
      | O =>
          match match_at lit cls s with
          | Some (group, len) => group :: findall_from lit cls (len - 1) s'
          | None => findall_from lit cls 0 s'
          end
      end
  end.

Definition findall (lit : string) (cls : ascii -> bool) (s : string)
    : list string :=
  findall_from lit cls 0 s.

End PyRe.

(** [deps.update(names)]. *)
Definition set_update (deps : PySet.set_) (names : list string) : PySet.set_ :=
  fold_left PySet.add names deps.

Definition _extract_docker_deps (command : string) : PySet.set_ :=
  let deps : PySet.set_ := [] in
  let deps :=
    if PyStr.contains "pip install" command
    then set_update deps (PyRe.findall "pip install" PyRe.pip_char command)
    else deps in
  let deps :=
    if PyStr.contains "apt-get install" command
    then set_update deps (PyRe.findall "apt-get install" PyRe.apt_char command)
    else deps in
  deps.

(** One entry of [image.history()]. *)
Record HistoryEntry : Type := mkHistoryEntry {
  CreatedBy : string;
  Size : Z
}.

(** A built image: its id and what [image.history()] returns ([None] when
    the call raises). *)
Record Image : Type := mkImage {
  image_id : string;
  history : option (list HistoryEntry)
}.

(** The container engine and the repository root, as [analyze_docker] sees
    them. *)
Record DockerEnv : Type := mkDockerEnv {
  (** [(repo_path / 'Dockerfile').exists()]. *)
  dockerfile_exists : string -> bool;
  (** [images.build(path=.., rm=True)]: [None] when the build raises. *)
  images_build : string -> option Image;
  (** Whether [images.remove(id, force=True)] returns. *)
  images_remove : string -> bool
}.

Inductive docker_call : Type :=
| ImagesBuild (path : string)
| ImageHistory (id : string)
| ImagesRemove (id : string).

Inductive docker_exn : Type :=
| NoneTypeAttributeError
| BuildError
| APIError.

Inductive docker_result : Type :=
| Layers (layers : list DockerLayer.t)
| DockerRaise (e : docker_exn).

Definition layer_of_entry (layer : HistoryEntry) : DockerLayer.t :=
  DockerLayer.mk (CreatedBy layer) (Size layer)
                 (_extract_docker_deps (CreatedBy layer)).

(** The [finally] clause of [analyze_docker] for a built image, followed by
    the outcome [r] of the [try] block. *)
Definition remove_then (env : DockerEnv) (image : Image) (r : docker_result)
    : list docker_call * docker_result :=
  ([ImagesRemove (image_id image)],
   if images_remove env (image_id image) then r else DockerRaise APIError).

Definition analyze_docker (env : DockerEnv) (self : ArchitectureAnalyzer)
    : list docker_call * docker_result :=
  if negb (dockerfile_exists env (repo_path self)) then ([], Layers [])
  else
    match docker_client self with
    | None => ([], DockerRaise NoneTypeAttributeError)
    | Some _ =>
        match images_build env (repo_path self) with
        | None => ([ImagesBuild (repo_path self)], DockerRaise BuildError)
        | Some image =>
            let r :=
              match history image with
              | Some entries => Layers (map layer_of_entry entries)
              | None => DockerRaise APIError
              end in
            let (calls, r) := remove_then env image r in
            (ImagesBuild (repo_path self) :: ImageHistory (image_id image)
               :: calls, r)
        end
    end.

(** ** Further definitions used to state properties *)

(** The nodes of a tree, the root first. *)
Fixpoint nodes_of (n : Ast.node) : list Ast.node :=
  n ::
  match n with
  | Ast.Module body => flat_map nodes_of body
  | Ast.Import names => map Ast.Alias names
  | Ast.ImportFrom _ names => map Ast.Alias names
  | Ast.Alias _ => []
  | Ast.Call func args => nodes_of func ++ flat_map nodes_of args
  | Ast.Name _ => [Ast.Ctx]
  | Ast.Attribute value _ => nodes_of value ++ [Ast.Ctx]
  | Ast.Ctx => []
  | Ast.Other children => flat_map nodes_of children
  end.

(** The module names an import node contributes. *)
Definition imported_by (node : Ast.node) : list string :=
  match node with
  | Ast.Import names => map PyStr.first_segment names
  | Ast.ImportFrom (Some module) _ =>
      if PyStr.truthy module then [PyStr.first_segment module] else []
  | _ => []
  end.

(** Every character of a string satisfies [p]. *)
Fixpoint all_chars (p : ascii -> bool) (s : string) : bool :=
  match s with
  | EmptyString => true
  | String c s' => p c && all_chars p s'
  end.

(** [d.get(k)]. *)
Fixpoint dict_get {V} (d : PyDict.dict V) (k : string) : option V :=
  match d with
  | [] => None
  | (k', v) :: d' => if String.eqb k' k then Some v else dict_get d' k
  end.

(** The value of the last pair of [l] with key [k]. *)
Fixpoint last_binding {V} (l : list (string * V)) (k : string) : option V :=
  match l with
  | [] => None
  | (k', v) :: l' =>
      match last_binding l' k with
      | Some w => Some w
      | None => if String.eqb k' k then Some v else None
      end
  end.

(** An entry with its value replaced by the last binding of its key. *)
Definition rebind {V} (l : list (string * V)) (item : string * V) : string * V :=
  (fst item,
   match last_binding l (fst item) with Some w => w | None => snd item end).

(** The assignments [d[k] = v] of a list of pairs, in order. *)
Definition set_all {V} (l : list (string * V)) (d : PyDict.dict V)
    : PyDict.dict V :=
  fold_left (fun d kv => PyDict.set d (fst kv) (snd kv)) l d.

(** The number of lines [generate_mermaid] appends for one layer. *)
Definition block_length (comps : list Component) : nat :=
  match comps with
  | [] => 0
  | _ => 2 + List.length comps
  end.

(** A successive run of passes over one analyzer: [true] stands for a call
    of [analyze], [false] for a call of [generate_mermaid]. *)
Fixpoint run_passes (world : World) (passes : list bool)
    (self : ArchitectureAnalyzer) : ArchitectureAnalyzer :=
  match passes with
  | [] => self
  | true :: rest => run_passes world rest (fst (analyze world self))
  | false :: rest => run_passes world rest (fst (generate_mermaid world self))
  end.


(** [s] is empty or starts with a character outside [p]. *)
Definition stops (p : ascii -> bool) (s : string) : bool :=
  match s with
  | EmptyString => true
  | String c _ => negb (p c)
  end.

(** A file that [analyze] does not skip. *)
Definition is_source (file : Path) : bool :=
  negb (PyStr.contains "test" (PyStr.lower (stem file))).

(** The invariant of the entries of the component map. *)
Definition entry_ok (item : string * Component) : Prop :=
  name (snd item) = fst item
  /\ PyStr.contains "test" (PyStr.lower (fst item)) = false.

(** *** A repository with two files of one stem and an unreadable file *)

Module Demo2.

Definition utils_a : Path := mkPath "repo2/a/utils.py" "utils".
Definition utils_b : Path := mkPath "repo2/b/utils.py" "utils".
Definition broken : Path := mkPath "repo2/broken.py" "broken".

Definition world : World :=
  {| read_text := fun p =>
       if String.eqb (path_str p) "repo2/broken.py" then None
       else read_text Demo.world p;
     ast_parse := ast_parse Demo.world;
     cc_visit := cc_visit Demo.world;
     mi_visit := mi_visit Demo.world;
     get_issue_list := get_issue_list Demo.world;
     rglob_py := fun dir =>
       if String.eqb dir "repo2" then [utils_a; utils_b; broken; Demo.core_py]
       else [];
     mkdtemp := mkdtemp Demo.world;
     clone_from := fun _ _ => false;
     docker_from_env := Some docker_client_handle;
     json_dumps := json_dumps Demo.world |}.

Definition analyzer : ArchitectureAnalyzer :=
  {| repo_path := "repo2"; temp_dir := None; components := [];
     docker_client := Some docker_client_handle |}.

(** The record [analyze] builds for a file of this repository. *)
Definition record (file : Path) : Component :=
  match analyze_file world file with
  | Ok c => c
  | Raise _ => new_Component "" "" file []
  end.

End Demo2.

(** *** A container engine whose image history cannot be read *)

Module DemoDocker.

Definition image : Image := mkImage "sha256:1f" None.

Definition env : DockerEnv :=
  {| dockerfile_exists := fun dir => String.eqb dir "repo2";
     images_build := fun _ => Some image;
     images_remove := fun _ => true |}.

End DemoDocker.

(** ** Properties *)

(** *** The model runs *)

Example lower_ex : PyStr.lower "My_API-Client" = "my_api-client".
Proof. reflexivity. Qed.

Example node_id_ex : PyStr.node_id "my-module.v2" = "my_module_v2".
Proof. reflexivity. Qed.

Example str_of_int_ex :
  PyStr.str_of_int 0 = "0" /\ PyStr.str_of_int 21 = "21"
  /\ PyStr.str_of_int (-3) = "-3".
Proof. repeat split. Qed.

Example contains_ex :
  PyStr.contains "get" "target" = true /\ PyStr.contains "get" "" = false.
Proof. split; reflexivity. Qed.

Example extract_dependencies_ex :
  _extract_dependencies Demo.world Demo.core_py = Ok ["os"; "helpers"].
Proof. reflexivity. Qed.

Example dangling_edges_ex :
  relationships Demo.dangling = [("utils", "core")].
Proof. reflexivity. Qed.

(** *** Style classes *)

Lemma style_of_spec (cc : Z) :
  ((cc <= 20)%Z -> style_of cc = ":::low") /\
  ((20 < cc <= 50)%Z -> style_of cc = ":::medium") /\
  ((50 < cc)%Z -> style_of cc = ":::high").
Proof.
  unfold style_of.
  destruct (Z.gtb_spec cc 50), (Z.gtb_spec cc 20); repeat split; intros;
    try reflexivity; lia.
Qed.

Lemma append_cancel_l (a b c : string) : (a ++ b = a ++ c)%string -> b = c.
Proof.
  induction a as [|x a IH]; simpl; intros H; [exact H|].
  injection H as H. exact (IH H).
Qed.

Lemma node_line_some (comp : Component) (p : PerformanceMetric.t) :
  performance comp = Some p ->
  node_line comp
  = Ok (node_text comp (PerformanceMetric.complexity p)
                  (style_of (PerformanceMetric.complexity p))).
Proof. intros Hp. unfold node_line. rewrite Hp. reflexivity. Qed.

(** C2: a component whose aggregate complexity is exactly 20 is rendered
    with the style class "low"; the threshold test of the renderer is
    [> 20], so the class "medium" starts at 21. *)
Theorem complexity_20_renders_low (comp : Component) (p : PerformanceMetric.t) :
  performance comp = Some p ->
  PerformanceMetric.complexity p = 20%Z ->
  node_line comp = Ok (node_text comp 20 ":::low")
  /\ node_line comp <> Ok (node_text comp 20 ":::medium").
Proof.
  intros Hp Hcc. rewrite (node_line_some comp p Hp), Hcc.
  split; [reflexivity|].
  intros H. injection H as H. unfold node_text in H.
  apply append_cancel_l in H. simpl in H. injection H as H.
  apply append_cancel_l in H. discriminate H.
Qed.

Lemma complexity_20_renders_low_witness :
  node_line (Demo.component "core" 20 [])
  = Ok "        core[core<br/>CC:20]:::low".
Proof.
  apply (complexity_20_renders_low (Demo.component "core" 20 []) (Demo.perf 20));
    reflexivity.
Defined.

(** C3: the node of a component is styled "low" when its aggregate
    complexity is at most 20, "medium" when it lies in (20, 50] and "high"
    above 50; the boundary values 20, 21, 50 and 51 give low, medium,
    medium and high. *)
Theorem node_style_thresholds (comp : Component) (p : PerformanceMetric.t) :
  performance comp = Some p ->
  let cc := PerformanceMetric.complexity p in
  ((cc <= 20)%Z -> node_line comp = Ok (node_text comp cc ":::low")) /\
  ((20 < cc <= 50)%Z -> node_line comp = Ok (node_text comp cc ":::medium")) /\
  ((50 < cc)%Z -> node_line comp = Ok (node_text comp cc ":::high")) /\
  style_of 20 = ":::low" /\ style_of 21 = ":::medium" /\
  style_of 50 = ":::medium" /\ style_of 51 = ":::high".
Proof.
  intros Hp cc. rewrite (node_line_some comp p Hp). fold cc.
  destruct (style_of_spec cc) as (Hlow & Hmed & Hhigh).
  repeat split; try reflexivity; intros H.
  - now rewrite Hlow.
  - now rewrite Hmed.
  - now rewrite Hhigh.
Qed.

Lemma node_style_thresholds_witness :
  node_line (Demo.component "core" 50 [])
  = Ok "        core[core<br/>CC:50]:::medium".
Proof.
  apply (node_style_thresholds (Demo.component "core" 50 []) (Demo.perf 50)
           eq_refl).
  simpl. lia.
Defined.

(** *** Construction *)

(** C10: constructing the analyzer with neither a repository URL nor a local
    path (both absent or empty) raises the [ValueError] at once: no analyzer
    is returned and nothing was asked of the outside world (no temporary
    directory, no clone, no docker client). *)
Theorem init_without_source_raises (world : World)
    (repo_url local_path : option string) :
  truthy_opt repo_url = false ->
  truthy_opt local_path = false ->
  __init__ world repo_url local_path
  = ([], Raise (ValueError "Either repo_url or local_path must be provided")).
Proof.
  intros Hurl Hpath. unfold __init__. rewrite Hurl, Hpath. reflexivity.
Qed.

Lemma init_without_source_raises_witness :
  __init__ Demo.world None None
  = ([], Raise (ValueError "Either repo_url or local_path must be provided")).
Proof.
  apply (init_without_source_raises Demo.world None None); reflexivity.
Defined.

(** *** An empty repository *)

Lemma set_components_same (self : ArchitectureAnalyzer) :
  set_components self (components self) = self.
Proof. destruct self; reflexivity. Qed.

(** Files whose stem contains "test" are all skipped. *)
Lemma analyze_loop_skips_tests (world : World) (files : list Path)
    (cs : PyDict.dict Component) :
  Forall (fun f => PyStr.contains "test" (PyStr.lower (stem f)) = true) files ->
  analyze_loop world files cs = (cs, Ok tt).
Proof.
  induction 1 as [|f files Hf _ IH]; simpl; [reflexivity|].
  rewrite Hf. exact IH.
Qed.

(** C8: when the repository has no matching source file, analysis of a new
    analyzer returns with the component map still empty, and the renderer
    then returns the two header lines and the three style-class lines,
    without any node or edge line. *)
Theorem empty_repository_renders_header_only (world : World)
    (self : ArchitectureAnalyzer) :
  rglob_py world (repo_path self) = [] ->
  components self = [] ->
  analyze world self = (self, Ok tt)
  /\ components (fst (analyze world self)) = []
  /\ mermaid_lines (components (fst (analyze world self)))
     = Ok ["graph TD";
           "    %% Style definitions";
           "    classDef high fill:#f44336,color:white";
           "    classDef medium fill:#fb8c00,color:white";
           "    classDef low fill:#81c784,color:black"]
  /\ generate_mermaid world (fst (analyze world self))
     = (self,
        Ok (PyStr.join PyStr.newline
              ["graph TD";
               "    %% Style definitions";
               "    classDef high fill:#f44336,color:white";
               "    classDef medium fill:#fb8c00,color:white";
               "    classDef low fill:#81c784,color:black"])).
Proof.
  intros Hfiles Hcs.
  assert (Han : analyze world self = (self, Ok tt)).
  { unfold analyze. rewrite Hfiles. simpl. now rewrite set_components_same. }
  rewrite Han. simpl. rewrite Hcs.
  repeat split.
  unfold generate_mermaid. rewrite Hcs. simpl. rewrite Han, Hcs. reflexivity.
Qed.

Lemma empty_repository_renders_header_only_witness :
  generate_mermaid Demo.world
    (fst (analyze Demo.world (mkAnalyzer "elsewhere" None [] None)))
  = (mkAnalyzer "elsewhere" None [] None,
     Ok "graph TD
    %% Style definitions
    classDef high fill:#f44336,color:white
    classDef medium fill:#fb8c00,color:white
    classDef low fill:#81c784,color:black").
Proof.
  apply (empty_repository_renders_header_only Demo.world
           (mkAnalyzer "elsewhere" None [] None)); reflexivity.
Defined.

(** *** The JSON dump *)

(** C1: in the [json] branch the command never runs the analysis, so for a
    local directory (any non-empty target that is not a URL) the object
    dumped has no entry under "components", whatever files the directory
    holds; the [mermaid] branch on the same target does run the analysis. *)
Theorem json_dump_has_no_components (world : World) (target : string) :
  PyStr.truthy target = true ->
  Cli.is_url target = false ->
  Cli.analyze world target None Cli.json
  = ([DockerFromEnv;
      Echo (json_dumps world (VDict [("components", VDict [])]))],
     Ok tt).
Proof.
  intros Htruthy Hurl. unfold Cli.analyze, __init__.
  rewrite Hurl. simpl. rewrite Htruthy. reflexivity.
Qed.

Lemma json_dump_has_no_components_witness :
  rglob_py Demo.world "repo" = [Demo.core_py; Demo.test_core_py]
  /\ Cli.analyze Demo.world "repo" None Cli.json
     = ([DockerFromEnv;
         Echo (json_dumps Demo.world (VDict [("components", VDict [])]))],
        Ok tt)
  /\ PyDict.keys
       (components (fst (generate_mermaid Demo.world (Demo.analyzer []))))
     = ["core"].
Proof.
  split; [reflexivity|]. split; [|reflexivity].
  apply (json_dump_has_no_components Demo.world "repo"); reflexivity.
Defined.

(** *** Stored kinds *)

(** Case analysis on the calls chained by [bind] in a hypothesis. *)
Ltac bind_cases H :=
  repeat match type of H with
         | context [bind ?r _] =>
             let E := fresh "E" in
             destruct r eqn:E; simpl in H; try discriminate H
         end.

Lemma detect_component_type_kinds (world : World) (file : Path) (kind : string) :
  PyStr.contains "test" (PyStr.lower (stem file)) = false ->
  _detect_component_type world file = Ok kind ->
  kind = "api" \/ kind = "model" \/ kind = "module".
Proof.
  intros Hname H. unfold _detect_component_type in H.
  bind_cases H. rewrite Hname in H.
  match type of H with
  | (if ?b then _ else _) = _ =>
      destruct b; [|destruct (PyStr.contains "model" _)]
  end; injection H as <-; auto.
Qed.

Lemma analyze_file_type (world : World) (file : Path) (c : Component) :
  analyze_file world file = Ok c ->
  _detect_component_type world file = Ok (type c) /\ name c = stem file
  /\ performance c <> None.
Proof.
  intros H. unfold analyze_file in H. bind_cases H.
  injection H as <-. simpl. repeat split. discriminate.
Qed.

Lemma stored_kind_of_kinds (c : Component) :
  type c = "api" \/ type c = "model" \/ type c = "module" -> stored_kind c.
Proof.
  intros H. split; [exact H|].
  destruct H as [-> | [-> | ->]]; discriminate.
Qed.

Lemma dict_set_values_Forall {V} (P : V -> Prop) (d : PyDict.dict V)
    (k : string) (v : V) :
  Forall P (PyDict.values d) -> P v -> Forall P (PyDict.values (PyDict.set d k v)).
Proof.
  unfold PyDict.values. intros Hd Hv.
  induction d as [|[k' v'] d IH]; simpl.
  - constructor; [exact Hv | constructor].
  - inversion Hd as [|? ? Hv' Hd']; subst.
    destruct (String.eqb k' k); simpl; constructor; auto.
Qed.

(** Whatever holds of every analyzed file's record holds of the map after
    the loop, whether it ends normally or by an exception. *)
Lemma analyze_loop_Forall (world : World) (P : Component -> Prop)
    (files : list Path) :
  (forall file c,
      In file files ->
      PyStr.contains "test" (PyStr.lower (stem file)) = false ->
      analyze_file world file = Ok c -> P c) ->
  forall cs,
    Forall P (PyDict.values cs) ->
    Forall P (PyDict.values (fst (analyze_loop world files cs))).
Proof.
  induction files as [|file rest IH]; intros HP cs Hcs; simpl; [exact Hcs|].
  destruct (PyStr.contains "test" _) eqn:Htest.
  - apply IH; [|exact Hcs]. intros f c Hin. apply HP. now right.
  - destruct (analyze_file world file) as [c|e] eqn:Hfile; [|exact Hcs].
    apply IH.
    + intros f c' Hin. apply HP. now right.
    + apply dict_set_values_Forall; [exact Hcs|].
      apply (HP file c); auto. now left.
Qed.

Lemma analyze_components (world : World) (self : ArchitectureAnalyzer) :
  components (fst (analyze world self))
  = fst (analyze_loop world (rglob_py world (repo_path self)) (components self)).
Proof.
  unfold analyze. destruct (analyze_loop _ _ _). reflexivity.
Qed.

Lemma analyze_Forall (world : World) (P : Component -> Prop)
    (self : ArchitectureAnalyzer) :
  (forall file c,
      PyStr.contains "test" (PyStr.lower (stem file)) = false ->
      analyze_file world file = Ok c -> P c) ->
  Forall P (PyDict.values (components self)) ->
  Forall P (PyDict.values (components (fst (analyze world self)))).
Proof.
  intros HP Hcs. rewrite analyze_components.
  apply analyze_loop_Forall; [|exact Hcs]. intros f c _. apply HP.
Qed.

Lemma generate_mermaid_components (world : World) (self : ArchitectureAnalyzer) :
  fst (generate_mermaid world self)
  = if PyDict.is_empty (components self) then fst (analyze world self) else self.
Proof.
  unfold generate_mermaid.
  destruct (PyDict.is_empty (components self)).
  - destruct (analyze world self) as [self' [[]|e]]; reflexivity.
  - reflexivity.
Qed.

(** An invariant of the stored records: true of the empty map and kept by
    every analyzed file, it holds of every analyzer the program can hold. *)
Lemma reachable_Forall (world : World) (P : Component -> Prop) :
  (forall file c,
      PyStr.contains "test" (PyStr.lower (stem file)) = false ->
      analyze_file world file = Ok c -> P c) ->
  forall self, reachable world self ->
               Forall P (PyDict.values (components self)).
Proof.
  intros HP self Hreach.
  induction Hreach as [url lp effects self Hinit | self _ IH | self _ IH].
  - unfold __init__ in Hinit.
    destruct (truthy_opt url); [destruct (clone_from _ _ _)|
                                 destruct (truthy_opt lp)];
      try discriminate Hinit; injection Hinit as _ <-; constructor.
  - now apply analyze_Forall.
  - rewrite generate_mermaid_components.
    destruct (PyDict.is_empty _); [now apply analyze_Forall | exact IH].
Qed.

(** C9: every record stored in the component map of an analyzer, after any
    sequence of analysis and rendering passes (completed or interrupted by
    an exception), has kind "api", "model" or "module" and never "test". *)
Theorem stored_records_are_never_tests (world : World)
    (self : ArchitectureAnalyzer) :
  reachable world self ->
  Forall stored_kind (PyDict.values (components self)).
Proof.
  apply reachable_Forall. intros file c Hname Hfile.
  apply stored_kind_of_kinds.
  destruct (analyze_file_type world file c Hfile) as (Htype & _).
  exact (detect_component_type_kinds world file (type c) Hname Htype).
Qed.

Lemma stored_records_are_never_tests_witness :
  Forall stored_kind
    (PyDict.values (components (fst (analyze Demo.world (Demo.analyzer []))))).
Proof.
  apply (stored_records_are_never_tests Demo.world).
  apply reach_analyze.
  apply (reach_init Demo.world None (Some "repo") [DockerFromEnv]).
  reflexivity.
Defined.

(** *** Call tallies *)

Lemma count_tree_children (p : Ast.node -> bool) (n : Ast.node) :
  count_tree p n
  = (if p n then 1 else 0)
    + list_sum (map (count_tree p) (Ast.iter_child_nodes n)).
Proof.
  destruct n; simpl; try rewrite map_map; simpl; try lia.
  - f_equal. f_equal. apply map_ext. intros a. lia.
  - f_equal. f_equal. apply map_ext. intros a. lia.
Qed.

(** The walk yields every node of every queued tree exactly once, so a
    count over the walk is the count over the trees. *)
Lemma walk_queue_count (p : Ast.node -> bool) (todo : list Ast.node) :
  List.length (filter p (Ast.walk_queue todo))
  = list_sum (map (count_tree p) todo).
Proof.
  funelim (Ast.walk_queue todo); [reflexivity|].
  simpl. rewrite count_tree_children.
  match goal with
  | IH : forall p, List.length (filter p (Ast.walk_queue _)) = _ |- _ =>
      specialize (IH p)
  | _ => idtac
  end.
  rewrite map_app, list_sum_app in *.
  destruct (p n); simpl; lia.
Qed.

Lemma count_calls_tree (p : Ast.node -> bool) (tree : Ast.node) :
  count_calls p tree = Z.of_nat (count_tree p tree).
Proof.
  unfold count_calls, Ast.walk. rewrite walk_queue_count. simpl.
  now rewrite Nat.add_0_r.
Qed.

(** C4, as stated, fails: a file holding the call [get()], whose callee is
    literally named [get], is analyzed with a network-call count of 0. *)
Lemma bare_get_call_is_not_counted :
  In (Ast.Call (Ast.Name "get") []) (Ast.walk Demo.bare_get)
  /\ exists p,
       analyze_performance (Demo.world_with Demo.bare_get) Demo.core_py = Ok p
       /\ PerformanceMetric.network_calls p = 0%Z.
Proof.
  split.
  - vm_compute. tauto.
  - eexists. split; reflexivity.
Qed.

(** C4 (amended): for every file that is read and parsed, the analyzer
    returns tallies that count each call expression of the tree once: the IO
    tally counts the calls whose callee is a plain name matching open, read
    or write, the DB tally the calls whose callee is an attribute access
    with attribute name matching execute, query or commit, and the network
    tally the calls whose callee is an attribute access with attribute name
    matching get, post or request; so any call of a method named [get]
    adds one to the network-call count. *)
Theorem performance_tallies (world : World) (file : Path) (content : string)
    (tree : Ast.node) :
  read_text world file = Some content ->
  ast_parse world content = Some tree ->
  exists p,
    analyze_performance world file = Ok p
    /\ PerformanceMetric.io_operations p = Z.of_nat (count_tree is_io_call tree)
    /\ PerformanceMetric.db_operations p = Z.of_nat (count_tree is_db_call tree)
    /\ PerformanceMetric.network_calls p
       = Z.of_nat (count_tree is_network_call tree)
    /\ (forall id args,
           In id ["open"; "read"; "write"] ->
           is_io_call (Ast.Call (Ast.Name id) args) = true)
    /\ (forall value attr args,
           In attr ["execute"; "query"; "commit"] ->
           is_db_call (Ast.Call (Ast.Attribute value attr) args) = true)
    /\ (forall value attr args,
           In attr ["get"; "post"; "request"] ->
           is_network_call (Ast.Call (Ast.Attribute value attr) args) = true)
    /\ (forall value args,
           count_tree is_network_call
             (Ast.Call (Ast.Attribute value "get") args)
           = S (count_tree is_network_call value
                + list_sum (map (count_tree is_network_call) args))).
Proof.
  intros Hread Hparse. unfold analyze_performance, read, parse.
  rewrite Hread. simpl. rewrite Hparse. simpl.
  eexists. split; [reflexivity|]. simpl.
  rewrite !count_calls_tree.
  repeat split.
  - intros id args [<- | [<- | [<- | []]]]; reflexivity.
  - intros value attr args [<- | [<- | [<- | []]]]; reflexivity.
  - intros value attr args [<- | [<- | [<- | []]]]; reflexivity.
  - intros value args. simpl. lia.
Qed.

Lemma performance_tallies_witness :
  exists p,
    analyze_performance Demo.world Demo.core_py = Ok p
    /\ PerformanceMetric.io_operations p = 0%Z
    /\ PerformanceMetric.db_operations p = 0%Z
    /\ PerformanceMetric.network_calls p = 1%Z.
Proof.
  destruct (performance_tallies Demo.world Demo.core_py
              _ Demo.tree eq_refl eq_refl)
    as (p & Hp & Hio & Hdb & Hnet & _).
  exists p. repeat split; assumption.
Defined.

(** *** The shape of the rendered diagram *)

Lemma mapM_app {A B} (f : A -> result B) (l1 l2 : list A) :
  mapM f (l1 ++ l2)
  = (xs <- mapM f l1 ;; ys <- mapM f l2 ;; Ok (xs ++ ys)).
Proof.
  induction l1 as [|a l1 IH]; simpl.
  - destruct (mapM f l2); reflexivity.
  - destruct (f a); simpl; [|reflexivity]. rewrite IH.
    destruct (mapM f l1); simpl; [|reflexivity].
    destruct (mapM f l2); reflexivity.
Qed.

Lemma node_text_is_node_line (c : Component) (cc : Z) (style : string) :
  is_node_line (node_text c cc style) = true.
Proof.
  unfold is_node_line, node_text. simpl.
  now destruct (PyStr.node_id (name c) ++ _)%string.
Qed.

Lemma node_text_not_edge_line (c : Component) (cc : Z) (style : string) :
  is_edge_line (node_text c cc style) = false.
Proof.
  unfold is_edge_line. rewrite node_text_is_node_line. apply andb_false_r.
Qed.

Lemma node_lines_ok (comps : list Component) :
  Forall (fun c => performance c <> None) comps ->
  exists nodes,
    mapM node_line comps = Ok nodes
    /\ filter is_node_line nodes = nodes
    /\ filter is_edge_line nodes = [].
Proof.
  induction 1 as [|c comps Hc _ (nodes & Hnodes & Hfilter & Hedges)]; simpl.
  - exists []. repeat split.
  - destruct (performance c) as [p|] eqn:Hp; [|contradiction].
    rewrite (node_line_some c p Hp), Hnodes. simpl.
    eexists. split; [reflexivity|].
    cbn [filter].
    now rewrite node_text_is_node_line, node_text_not_edge_line, Hfilter, Hedges.
Qed.

Lemma layer_block_ok (layer : string) (comps : list Component) :
  PyStr.contains " --> " ("    subgraph " ++ layer ++ " Layer") = false ->
  Forall (fun c => performance c <> None) comps ->
  exists block nodes,
    layer_block (layer, comps) = Ok block
    /\ mapM node_line comps = Ok nodes
    /\ filter is_node_line block = nodes
    /\ filter is_edge_line block = [].
Proof.
  intros Hlayer Hperf.
  destruct (node_lines_ok comps Hperf) as (nodes & Hnodes & Hfilter & Hedges).
  destruct comps as [|c comps].
  - exists [], []. repeat split.
  - unfold layer_block. rewrite Hnodes. simpl.
    eexists. exists nodes. repeat split.
    + cbn [filter]. unfold is_node_line at 1. cbn [String.prefix ascii_dec].
      simpl. rewrite filter_app, Hfilter. simpl. apply app_nil_r.
    + cbn [filter]. unfold is_edge_line at 1.
      change (String " " (String " " (String " " (String " "
                (String "s" (String "u" (String "b" (String "g" (String "r"
                   (String "a" (String "p" (String "h" (String " "
                      (layer ++ " Layer"))))))))))))))%string
        with ("    subgraph " ++ layer ++ " Layer")%string.
      rewrite Hlayer. cbn [andb]. rewrite filter_app, Hedges. reflexivity.
Qed.

Lemma sub_nonword_no_indent (b : bool) (s rest : string) :
  String.prefix "    " (PyStr.sub_nonword b s ++ " --> " ++ rest) = false.
Proof.
  revert b. induction s as [|c s IH]; intros b; [reflexivity|].
  cbn [PyStr.sub_nonword]. destruct (PyStr.is_word c) eqn:Hw.
  - cbn [String.append String.prefix].
    destruct (ascii_dec " " c) as [<-|]; [discriminate Hw | reflexivity].
  - destruct b; [apply IH | reflexivity].
Qed.

Lemma edge_line_not_node (edge : string * string) :
  is_node_line (edge_line edge) = false.
Proof.
  unfold is_node_line, edge_line, PyStr.node_id.
  cbn [String.append String.prefix ascii_dec]. simpl.
  apply sub_nonword_no_indent.
Qed.

Lemma prefix_append (a b : string) : String.prefix a (a ++ b) = true.
Proof.
  induction a as [|x a IH]; simpl; [now destruct b|].
  destruct (ascii_dec x x); [exact IH | contradiction].
Qed.

Lemma contains_append (sub a b : string) :
  PyStr.contains sub (a ++ sub ++ b) = true.
Proof.
  induction a as [|x a IH].
  - cbn [String.append]. destruct (sub ++ b)%string eqn:E; cbn [PyStr.contains];
      rewrite <- E, prefix_append; reflexivity.
  - cbn [String.append PyStr.contains]. rewrite IH. apply orb_true_r.
Qed.

Lemma edge_line_is_edge (edge : string * string) :
  is_edge_line (edge_line edge) = true.
Proof.
  unfold is_edge_line. rewrite edge_line_not_node, andb_true_r.
  exact (contains_append " --> " ("    " ++ PyStr.node_id (fst edge))
                         (PyStr.node_id (snd edge))).
Qed.

Lemma edge_lines_filter (edges : list (string * string)) :
  filter is_node_line (map edge_line edges) = []
  /\ filter is_edge_line (map edge_line edges) = map edge_line edges.
Proof.
  induction edges as [|e edges [IHn IHe]]; simpl; [split; reflexivity|].
  rewrite edge_line_not_node, edge_line_is_edge, IHn, IHe. split; reflexivity.
Qed.

Lemma filter_In_Forall {A} (P : A -> Prop) (f : A -> bool) (l : list A) :
  Forall P l -> Forall P (filter f l).
Proof.
  intros H. apply Forall_forall. intros x Hx.
  apply filter_In in Hx as [Hx _]. revert x Hx. now apply Forall_forall.
Qed.

(** With a performance record on every component, rendering returns; the
    node lines of the result are those of [rendered_nodes], in order, and
    its edge lines are those of [relationships], in order. *)
Lemma mermaid_lines_ok (cs : PyDict.dict Component) :
  with_performance cs ->
  exists lines nodes,
    mermaid_lines cs = Ok lines
    /\ mapM node_line (rendered_nodes cs) = Ok nodes
    /\ filter is_node_line lines = nodes
    /\ filter is_edge_line lines = map edge_line (relationships cs).
Proof.
  intros Hperf. unfold with_performance in Hperf.
  destruct (layer_block_ok "Client" _ eq_refl
              (filter_In_Forall _ in_client_layer _ Hperf))
    as (b1 & n1 & Hb1 & Hn1 & Hf1 & He1).
  destruct (layer_block_ok "API" _ eq_refl
              (filter_In_Forall _ in_api_layer _ Hperf))
    as (b2 & n2 & Hb2 & Hn2 & Hf2 & He2).
  destruct (layer_block_ok "Core" _ eq_refl
              (filter_In_Forall _ in_core_layer _ Hperf))
    as (b3 & n3 & Hb3 & Hn3 & Hf3 & He3).
  destruct (edge_lines_filter (relationships cs)) as [Hrn Hre].
  eexists. exists (n1 ++ n2 ++ n3).
  unfold mermaid_lines, rendered_nodes, layers.
  cbn [mapM flat_map snd]. rewrite Hb1, Hb2, Hb3. cbn [bind List.concat].
  rewrite app_nil_r. split; [reflexivity|]. repeat split.
  - rewrite !mapM_app, Hn1, Hn2, Hn3. simpl. now rewrite app_nil_r.
  - rewrite !filter_app, Hf1, Hf2, Hf3, Hrn. simpl. now rewrite !app_nil_r.
  - rewrite !filter_app, He1, He2, He3, Hre. reflexivity.
Qed.

Lemma generate_mermaid_nonempty (world : World) (self : ArchitectureAnalyzer) :
  components self <> [] ->
  generate_mermaid world self
  = (self,
     mermaid <- mermaid_lines (components self) ;;
     Ok (PyStr.join PyStr.newline mermaid)).
Proof.
  intros Hcs. unfold generate_mermaid.
  destruct (components self) eqn:E; [contradiction|].
  simpl. now rewrite E.
Qed.


(** *** Layer groups *)

Lemma in_some_layer_spec (c : Component) :
  in_some_layer c = in_client_layer c || in_api_layer c || in_core_layer c.
Proof.
  unfold in_some_layer, in_client_layer, in_api_layer, in_core_layer,
    PyStr.contains_any. simpl.
  now rewrite !orb_false_r, !orb_assoc.
Qed.

Lemma layer_matches_le_3 (c : Component) : layer_matches c <= 3.
Proof.
  unfold layer_matches.
  destruct (in_client_layer c), (in_api_layer c), (in_core_layer c); simpl; lia.
Qed.

Lemma count_named_app (n : string) (l1 l2 : list Component) :
  count_named n (l1 ++ l2) = count_named n l1 + count_named n l2.
Proof. unfold count_named. now rewrite filter_app, length_app. Qed.

Lemma count_named_filter (n : string) (f : Component -> bool)
    (l : list Component) :
  count_named n (filter f l)
  = list_sum (map (fun c => if f c then 1 else 0)
                  (filter (fun c => String.eqb (name c) n) l)).
Proof.
  unfold count_named. induction l as [|c l IH]; simpl; [reflexivity|].
  destruct (f c) eqn:Hf, (String.eqb (name c) n) eqn:Hn; simpl;
    rewrite ?Hf, ?Hn; simpl; lia.
Qed.

Lemma list_sum_map_add {A} (f g : A -> nat) (l : list A) :
  list_sum (map f l) + list_sum (map g l)
  = list_sum (map (fun a => f a + g a) l).
Proof. induction l as [|a l IH]; simpl; lia. Qed.

(** A component is rendered once for every layer test it passes. *)
Lemma rendered_nodes_count (cs : PyDict.dict Component) (n : string) :
  count_named n (rendered_nodes cs)
  = list_sum (map layer_matches
                  (filter (fun c => String.eqb (name c) n) (PyDict.values cs))).
Proof.
  unfold rendered_nodes, layers. cbn [flat_map snd].
  rewrite !count_named_app, !count_named_filter. simpl.
  rewrite Nat.add_0_r, Nat.add_assoc, !list_sum_map_add. reflexivity.
Qed.

Lemma filter_no_name (l : list Component) (n : string) :
  ~ In n (map name l) ->
  filter (fun c' => String.eqb (name c') n) l = [].
Proof.
  induction l as [|x l IH]; intros Hn; [reflexivity|]. simpl.
  destruct (String.eqb_spec (name x) n) as [E|_].
  - exfalso. apply Hn. now left.
  - apply IH. intros H. apply Hn. now right.
Qed.

Lemma filter_unique_name (l : list Component) (c : Component) :
  NoDup (map name l) -> In c l ->
  filter (fun c' => String.eqb (name c') (name c)) l = [c].
Proof.
  induction l as [|x l IH]; intros Hnd Hin; [contradiction|].
  simpl in Hnd. inversion Hnd as [|? ? Hx Hl]; subst.
  simpl. destruct Hin as [-> | Hin].
  - rewrite String.eqb_refl. f_equal. now apply filter_no_name.
  - destruct (String.eqb_spec (name x) (name c)) as [E|_].
    + exfalso. apply Hx. rewrite E. now apply in_map.
    + now apply IH.
Qed.

(** C5, as stated, fails: a component named [api_client] passes the client
    test and the API test, so it belongs to two groups and its node line is
    emitted twice. *)
Lemma layer_groups_overlap :
  In (Demo.component "api_client" 3 [])
     (filter in_client_layer (PyDict.values Demo.overlapping))
  /\ In (Demo.component "api_client" 3 [])
        (filter in_api_layer (PyDict.values Demo.overlapping))
  /\ exists lines,
       mermaid_lines Demo.overlapping = Ok lines
       /\ filter is_node_line lines
          = ["        api_client[api_client<br/>CC:3]:::low";
             "        api_client[api_client<br/>CC:3]:::low"].
Proof.
  split; [left; reflexivity|]. split; [left; reflexivity|].
  eexists. split; reflexivity.
Qed.

(** C5 (amended): the renderer selects the three layer groups by three
    independent tests on the lower-cased name (client; api; core, type or
    base), and the node lines of the diagram are those of the Client group,
    then the API group, then the Core group.  A component is therefore
    emitted once for every test its name passes, at most three times; the
    groups are pairwise disjoint, and every component is emitted at most
    once, when no name passes two tests. *)
Theorem layer_groups_by_independent_tests (cs : PyDict.dict Component) :
  with_performance cs ->
  exists lines nodes,
    mermaid_lines cs = Ok lines
    /\ mapM node_line (rendered_nodes cs) = Ok nodes
    /\ filter is_node_line lines = nodes
    /\ rendered_nodes cs
       = filter in_client_layer (PyDict.values cs)
         ++ filter in_api_layer (PyDict.values cs)
         ++ filter in_core_layer (PyDict.values cs)
    /\ (forall n,
           count_named n (rendered_nodes cs)
           = list_sum
               (map layer_matches
                    (filter (fun c => String.eqb (name c) n) (PyDict.values cs))))
    /\ (forall c, layer_matches c <= 3)
    /\ (NoDup (map name (PyDict.values cs)) ->
        forall c, In c (PyDict.values cs) ->
                  count_named (name c) (rendered_nodes cs) = layer_matches c)
    /\ ((forall c, In c (PyDict.values cs) -> layer_matches c <= 1) ->
        forall c,
          ~ (In c (filter in_client_layer (PyDict.values cs))
             /\ In c (filter in_api_layer (PyDict.values cs)))
          /\ ~ (In c (filter in_client_layer (PyDict.values cs))
                /\ In c (filter in_core_layer (PyDict.values cs)))
          /\ ~ (In c (filter in_api_layer (PyDict.values cs))
                /\ In c (filter in_core_layer (PyDict.values cs)))).
Proof.
  intros Hperf.
  destruct (mermaid_lines_ok cs Hperf) as (lines & nodes & Hl & Hn & Hf & _).
  exists lines, nodes. repeat split; try assumption.
  - unfold rendered_nodes, layers. simpl. now rewrite app_nil_r.
  - apply rendered_nodes_count.
  - apply layer_matches_le_3.
  - intros Hnd c Hc. rewrite rendered_nodes_count.
    rewrite (filter_unique_name _ c Hnd Hc). simpl. lia.
  - intros [H1 H2]. apply filter_In in H1 as [Hin H1], H2 as [_ H2].
    specialize (H c Hin). unfold layer_matches in H. rewrite H1, H2 in H.
    simpl in H. lia.
  - intros [H1 H2]. apply filter_In in H1 as [Hin H1], H2 as [_ H2].
    specialize (H c Hin). unfold layer_matches in H. rewrite H1, H2 in H.
    destruct (in_api_layer c); simpl in H; lia.
  - intros [H1 H2]. apply filter_In in H1 as [Hin H1], H2 as [_ H2].
    specialize (H c Hin). unfold layer_matches in H. rewrite H1, H2 in H.
    destruct (in_client_layer c); simpl in H; lia.
Qed.

Lemma demo_dangling_with_performance : with_performance Demo.dangling.
Proof. unfold with_performance. simpl. repeat constructor; discriminate. Qed.

Lemma layer_groups_by_independent_tests_witness :
  exists lines,
    mermaid_lines Demo.dangling = Ok lines
    /\ filter is_node_line lines = ["        core[core<br/>CC:21]:::medium"].
Proof.
  destruct (layer_groups_by_independent_tests Demo.dangling
              demo_dangling_with_performance)
    as (lines & nodes & Hl & Hn & Hf & _).
  exists lines. split; [exact Hl|].
  rewrite Hf. simpl in Hn. now injection Hn as <-.
Defined.

(** *** Dependency edges *)

Lemma dict_contains_keys {V} (k : string) (d : PyDict.dict V) :
  PyDict.contains k d = true <-> In k (PyDict.keys d).
Proof.
  unfold PyDict.contains, PyDict.keys. rewrite existsb_exists, in_map_iff.
  split.
  - intros (kv & Hin & Heq). apply String.eqb_eq in Heq. now exists kv.
  - intros (kv & Heq & Hin). exists kv. split; [exact Hin|].
    now apply String.eqb_eq.
Qed.

(** The last loop appends a line for [(key, d)] exactly when [d] is a
    dependency of a record stored under [key] and [d] is itself a key. *)
Lemma relationships_spec (cs : PyDict.dict Component) (key d : string) :
  In (key, d) (relationships cs)
  <-> exists c, In (key, c) cs /\ In d (dependencies c)
                /\ In d (PyDict.keys cs).
Proof.
  unfold relationships. rewrite in_flat_map. split.
  - intros ([k c] & Hin & Hmap). simpl in Hmap.
    apply in_map_iff in Hmap as (d' & Heq & Hd).
    injection Heq as <- <-. apply filter_In in Hd as [Hd Hkey].
    exists c. repeat split; try assumption. now apply dict_contains_keys.
  - intros (c & Hin & Hd & Hkey). exists (key, c). split; [exact Hin|].
    simpl. apply in_map. apply filter_In. split; [exact Hd|].
    now apply dict_contains_keys.
Qed.

Lemma rendered_nodes_in_some_layer (cs : PyDict.dict Component) :
  Forall (fun c => in_some_layer c = true) (rendered_nodes cs).
Proof.
  apply Forall_forall. intros c Hc. rewrite in_some_layer_spec.
  unfold rendered_nodes, layers in Hc. simpl in Hc.
  rewrite !in_app_iff, !filter_In in Hc.
  destruct Hc as [[_ ->] | [[_ ->] | [[_ ->] | []]]];
    rewrite ?orb_true_r; reflexivity.
Qed.

(** C6: a stored component whose lower-cased name contains none of client,
    api, core, type and base is not among the rendered nodes (no node line
    is emitted for it, nor for any record of that name), while the diagram
    still has the edge line of each of its dependencies that is a key of
    the map. *)
Theorem unlayered_component_keeps_edges (world : World)
    (self : ArchitectureAnalyzer) (key : string) (c : Component) :
  with_performance (components self) ->
  In (key, c) (components self) ->
  in_some_layer c = false ->
  exists lines nodes,
    generate_mermaid world self = (self, Ok (PyStr.join PyStr.newline lines))
    /\ mermaid_lines (components self) = Ok lines
    /\ mapM node_line (rendered_nodes (components self)) = Ok nodes
    /\ filter is_node_line lines = nodes
    /\ ~ In c (rendered_nodes (components self))
    /\ count_named (name c) (rendered_nodes (components self)) = 0
    /\ (forall d,
           In d (dependencies c) ->
           In d (PyDict.keys (components self)) ->
           In (key, d) (relationships (components self))
           /\ In (edge_line (key, d)) (filter is_edge_line lines)).
Proof.
  intros Hperf Hin Hlayer.
  destruct (mermaid_lines_ok _ Hperf) as (lines & nodes & Hl & Hn & Hf & He).
  exists lines, nodes.
  assert (Hne : components self <> []) by (intros E; now rewrite E in Hin).
  rewrite (generate_mermaid_nonempty world self Hne), Hl.
  pose proof (rendered_nodes_in_some_layer (components self)) as Hsome.
  rewrite Forall_forall in Hsome.
  repeat split; try assumption.
  - intros Hc. apply Hsome in Hc. congruence.
  - unfold count_named.
    destruct (filter _ (rendered_nodes (components self))) as [|c' l] eqn:E;
      [reflexivity|].
    assert (Hc' : In c' (c' :: l)) by now left.
    rewrite <- E in Hc'. apply filter_In in Hc' as [Hc' Hname].
    apply String.eqb_eq in Hname. apply Hsome in Hc'.
    unfold in_some_layer in Hc', Hlayer. rewrite Hname in Hc'. congruence.
  - apply relationships_spec. now exists c.
  - rewrite He. apply (in_map edge_line). apply relationships_spec. now exists c.
Qed.

Lemma unlayered_component_keeps_edges_witness :
  exists lines,
    generate_mermaid Demo.world (Demo.analyzer Demo.dangling)
    = (Demo.analyzer Demo.dangling, Ok (PyStr.join PyStr.newline lines))
    /\ filter is_node_line lines = ["        core[core<br/>CC:21]:::medium"]
    /\ In "    utils --> core" (filter is_edge_line lines).
Proof.
  destruct (unlayered_component_keeps_edges Demo.world
              (Demo.analyzer Demo.dangling) "utils"
              (Demo.component "utils" 3 ["core"; "requests"])
              demo_dangling_with_performance (or_introl eq_refl) eq_refl)
    as (lines & nodes & Hg & _ & Hn & Hf & _ & _ & Hedges).
  exists lines. split; [exact Hg|]. split.
  - rewrite Hf. simpl in Hn. now injection Hn as <-.
  - apply (Hedges "core"); simpl; auto.
Defined.

(** C7: the edge lines of the diagram are the lines of the pairs
    [(key, d)] where [d] is a dependency of the record stored under [key]
    and [d] is exactly a key of the component map: for a dependency [d] of a
    stored component, the edge to [d] is emitted if and only if [d] is a
    key, and a dependency that is not a key (a third-party module) yields no
    edge. *)
Theorem edges_only_to_component_keys (world : World)
    (self : ArchitectureAnalyzer) :
  with_performance (components self) ->
  components self <> [] ->
  exists lines,
    generate_mermaid world self = (self, Ok (PyStr.join PyStr.newline lines))
    /\ filter is_edge_line lines
       = map edge_line (relationships (components self))
    /\ (forall key c d,
           In (key, c) (components self) ->
           In d (dependencies c) ->
           (In (key, d) (relationships (components self))
            <-> In d (PyDict.keys (components self))))
    /\ (forall key d,
           In (key, d) (relationships (components self)) ->
           In key (PyDict.keys (components self))
           /\ In d (PyDict.keys (components self)))
    /\ (forall key c d,
           In (key, c) (components self) ->
           In d (dependencies c) ->
           ~ In d (PyDict.keys (components self)) ->
           ~ In (key, d) (relationships (components self))).
Proof.
  intros Hperf Hne.
  destruct (mermaid_lines_ok _ Hperf) as (lines & nodes & Hl & _ & _ & He).
  exists lines. rewrite (generate_mermaid_nonempty world self Hne), Hl.
  split; [reflexivity|]. split; [exact He|]. split; [|split].
  - intros key c d Hin Hd. split.
    + intros H. apply relationships_spec in H as (c' & _ & _ & Hkey).
      exact Hkey.
    + intros Hkey. apply relationships_spec. now exists c.
  - intros key d H. apply relationships_spec in H as (c & Hin & _ & Hkey).
    split; [|exact Hkey].
    unfold PyDict.keys. apply in_map_iff. now exists (key, c).
  - intros key c d _ _ Hkey Hrel.
    apply relationships_spec in Hrel as (c' & _ & _ & Hkey').
    contradiction.
Qed.

Lemma edges_only_to_component_keys_witness :
  exists lines,
    generate_mermaid Demo.world (Demo.analyzer Demo.dangling)
    = (Demo.analyzer Demo.dangling, Ok (PyStr.join PyStr.newline lines))
    /\ filter is_edge_line lines = ["    utils --> core"].
Proof.
  destruct (edges_only_to_component_keys Demo.world
              (Demo.analyzer Demo.dangling) demo_dangling_with_performance)
    as (lines & Hg & He & _).
  - discriminate.
  - exists lines. split; [exact Hg | exact He].
Defined.

(** ** Further properties of the code *)

(** *** Node identifiers *)

Lemma sub_nonword_word_chars (b : bool) (s : string) :
  all_chars PyStr.is_word (PyStr.sub_nonword b s) = true.
Proof.
  revert b. induction s as [|c s IH]; intros b; [reflexivity|].
  cbn [PyStr.sub_nonword]. destruct (PyStr.is_word c) eqn:Hw.
  - cbn [all_chars]. now rewrite Hw, IH.
  - destruct b; [apply IH|]. cbn [all_chars]. now rewrite IH.
Qed.

Lemma sub_nonword_length (b : bool) (s : string) :
  String.length (PyStr.sub_nonword b s) <= String.length s.
Proof.
  revert b. induction s as [|c s IH]; intros b; [apply Nat.le_refl|].
  cbn [PyStr.sub_nonword]. destruct (PyStr.is_word c).
  - simpl. apply le_n_S, IH.
  - destruct b; simpl; [apply Nat.le_le_succ_r, IH | apply le_n_S, IH].
Qed.

(** X1: a node identifier holds only word characters (letters, digits,
    underscore), whatever the component name, and is never longer than the
    name. *)
Theorem node_id_word_chars (name : string) :
  all_chars PyStr.is_word (PyStr.node_id name) = true
  /\ String.length (PyStr.node_id name) <= String.length name.
Proof.
  split; [apply sub_nonword_word_chars | apply sub_nonword_length].
Qed.

Lemma sub_nonword_fixed (b : bool) (s : string) :
  all_chars PyStr.is_word s = true -> PyStr.sub_nonword b s = s.
Proof.
  revert b. induction s as [|c s IH]; intros b H; [reflexivity|].
  cbn [all_chars] in H. apply andb_prop in H as [Hc Hs].
  cbn [PyStr.sub_nonword]. rewrite Hc. f_equal. now apply IH.
Qed.

(** X2: a name made of word characters is its own node identifier, so
    normalising twice changes nothing. *)
Theorem node_id_fixed_on_words (name : string) :
  (all_chars PyStr.is_word name = true -> PyStr.node_id name = name)
  /\ PyStr.node_id (PyStr.node_id name) = PyStr.node_id name.
Proof.
  split.
  - apply sub_nonword_fixed.
  - apply sub_nonword_fixed, sub_nonword_word_chars.
Qed.

Lemma node_id_fixed_on_words_witness :
  PyStr.node_id "repo_viz2" = "repo_viz2".
Proof.
  apply (proj1 (node_id_fixed_on_words "repo_viz2")). reflexivity.
Defined.

(** *** The tree walk and the dependency extractor *)

Lemma flat_map_aliases (names : list string) :
  flat_map nodes_of (map Ast.Alias names) = map Ast.Alias names.
Proof.
  induction names as [|a names IH]; simpl; [reflexivity | now rewrite IH].
Qed.

Lemma nodes_of_children (n : Ast.node) :
  nodes_of n = n :: flat_map nodes_of (Ast.iter_child_nodes n).
Proof.
  destruct n; simpl; rewrite ?flat_map_aliases, ?app_nil_r; reflexivity.
Qed.

(** The walk is a rearrangement of the nodes of the queued trees. *)
Lemma walk_queue_nodes (todo : list Ast.node) :
  Permutation (Ast.walk_queue todo) (flat_map nodes_of todo).
Proof.
  funelim (Ast.walk_queue todo); [constructor|].
  cbn [flat_map]. rewrite nodes_of_children. cbn [app]. constructor.
  etransitivity; [eassumption|].
  rewrite flat_map_app. apply Permutation_app_comm.
Qed.

Lemma walk_nodes (tree : Ast.node) :
  Permutation (Ast.walk tree) (nodes_of tree).
Proof.
  unfold Ast.walk. etransitivity; [apply walk_queue_nodes|].
  simpl. now rewrite app_nil_r.
Qed.

Lemma set_mem_In (x : string) (s : PySet.set_) :
  PySet.mem x s = true <-> In x s.
Proof.
  unfold PySet.mem. rewrite existsb_exists. split.
  - intros (y & Hy & Heq). apply String.eqb_eq in Heq. now subst.
  - intros H. exists x. split; [exact H | apply String.eqb_refl].
Qed.

Lemma set_add_In (s : PySet.set_) (x y : string) :
  In y (PySet.add s x) <-> In y s \/ y = x.
Proof.
  unfold PySet.add. destruct (PySet.mem x s) eqn:Hm.
  - apply set_mem_In in Hm. split; [auto|]. intros [H | ->]; assumption.
  - rewrite in_app_iff. simpl. intuition.
Qed.

Lemma set_add_NoDup (s : PySet.set_) (x : string) :
  NoDup s -> NoDup (PySet.add s x).
Proof.
  intros Hs. unfold PySet.add. destruct (PySet.mem x s) eqn:Hm; [exact Hs|].
  apply NoDup_app; [exact Hs | repeat constructor; intros [] |].
  intros y Hy [<- | []]. apply set_mem_In in Hy. congruence.
Qed.

Lemma set_update_In (names : list string) (s : PySet.set_) (y : string) :
  In y (set_update s names) <-> In y s \/ In y names.
Proof.
  unfold set_update. revert s.
  induction names as [|x names IH]; intros s; simpl; [tauto|].
  rewrite IH, set_add_In. intuition.
Qed.

Lemma set_update_NoDup (names : list string) (s : PySet.set_) :
  NoDup s -> NoDup (set_update s names).
Proof.
  unfold set_update. revert s.
  induction names as [|x names IH]; intros s Hs; simpl; [exact Hs|].
  apply IH, set_add_NoDup, Hs.
Qed.

Lemma add_import_update (deps : PySet.set_) (node : Ast.node) :
  add_import deps node = set_update deps (imported_by node).
Proof.
  destruct node as [| names | [m|] names | | | | | |]; try reflexivity.
  - unfold add_import, set_update, imported_by.
    revert deps. induction names as [|a names IH]; intros deps; simpl;
      [reflexivity | apply IH].
  - unfold add_import, imported_by. now destruct (PyStr.truthy m).
Qed.

Lemma fold_add_import_In (nodes : list Ast.node) (s : PySet.set_) (d : string) :
  In d (fold_left add_import nodes s)
  <-> In d s \/ exists n, In n nodes /\ In d (imported_by n).
Proof.
  revert s. induction nodes as [|n nodes IH]; intros s; simpl.
  - split; [auto | intros [H | (n & [] & _)]; exact H].
  - rewrite IH, add_import_update, set_update_In. split.
    + intros [[H | H] | (n' & Hn' & Hd)]; [now left | |].
      * right. exists n. auto.
      * right. exists n'. auto.
    + intros [H | (n' & [<- | Hn'] & Hd)]; [auto | auto |].
      right. now exists n'.
Qed.

Lemma fold_add_import_NoDup (nodes : list Ast.node) (s : PySet.set_) :
  NoDup s -> NoDup (fold_left add_import nodes s).
Proof.
  revert s. induction nodes as [|n nodes IH]; intros s Hs; simpl; [exact Hs|].
  apply IH. rewrite add_import_update. now apply set_update_NoDup.
Qed.

(** X3: for a file that is read and parsed, the dependency set holds
    exactly the first dot-segments of the names imported by the [import]
    nodes and of the modules of the [from ... import] nodes found anywhere
    in the tree; a relative import without a module adds nothing. *)
Theorem extract_dependencies_spec (world : World) (file : Path)
    (content : string) (tree : Ast.node) :
  read_text world file = Some content ->
  ast_parse world content = Some tree ->
  exists deps,
    _extract_dependencies world file = Ok deps
    /\ (forall d,
           In d deps
           <-> exists n, In n (nodes_of tree) /\ In d (imported_by n))
    /\ (forall names, imported_by (Ast.ImportFrom None names) = []).
Proof.
  intros Hread Hparse. unfold _extract_dependencies, read, parse.
  rewrite Hread. simpl. rewrite Hparse. simpl.
  eexists. split; [reflexivity|]. split; [|reflexivity].
  intros d. rewrite fold_add_import_In. split.
  - intros [[] | (n & Hn & Hd)]. exists n. split; [|exact Hd].
    now apply (Permutation_in _ (walk_nodes tree)).
  - intros (n & Hn & Hd). right. exists n. split; [|exact Hd].
    now apply (Permutation_in _ (Permutation_sym (walk_nodes tree))).
Qed.

Lemma extract_dependencies_spec_witness :
  exists deps,
    _extract_dependencies Demo.world Demo.core_py = Ok deps
    /\ In "os" deps.
Proof.
  destruct (extract_dependencies_spec Demo.world Demo.core_py _ Demo.tree
              eq_refl eq_refl) as (deps & Hdeps & Hin & _).
  exists deps. split; [exact Hdeps|].
  apply Hin. exists (Ast.Import ["os.path"]). split; simpl; auto.
Defined.

Lemma first_segment_no_dot (s : string) :
  PyStr.contains "." (PyStr.first_segment s) = false.
Proof.
  induction s as [|c s IH]; [reflexivity|].
  cbn [PyStr.first_segment]. destruct (Ascii.eqb_spec c ".") as [->|Hc];
    [reflexivity|].
  cbn [PyStr.contains String.prefix]. rewrite IH.
  destruct (ascii_dec "." c) as [<-|]; [contradiction | reflexivity].
Qed.

(** X4: the dependency set of a file never lists a name twice, and none of
    its names contains a dot: only top-level package names are kept. *)
Theorem extract_dependencies_top_level (world : World) (file : Path)
    (deps : PySet.set_) :
  _extract_dependencies world file = Ok deps ->
  NoDup deps /\ forall d, In d deps -> PyStr.contains "." d = false.
Proof.
  intros H. unfold _extract_dependencies in H. bind_cases H.
  injection H as <-. split.
  - apply fold_add_import_NoDup. constructor.
  - intros d Hd. apply fold_add_import_In in Hd as [[] | (n & _ & Hd)].
    destruct n as [| names | [m|] names | | | | | |]; simpl in Hd;
      try contradiction.
    + apply in_map_iff in Hd as (x & <- & _). apply first_segment_no_dot.
    + destruct (PyStr.truthy m); [|contradiction].
      destruct Hd as [<- | []]. apply first_segment_no_dot.
Qed.

Lemma extract_dependencies_top_level_witness :
  NoDup ["os"; "helpers"]
  /\ forall d, In d ["os"; "helpers"] -> PyStr.contains "." d = false.
Proof.
  apply (extract_dependencies_top_level Demo.world Demo.core_py).
  reflexivity.
Defined.

(** *** Classification *)

(** X5: classification is first-match-wins: for a readable file the kind is
    "test" exactly when the lower-cased stem contains test; otherwise "api"
    exactly when the lower-cased content names fastapi, flask or django;
    otherwise "model" exactly when the stem contains model; otherwise
    "module". *)
Theorem detect_component_type_first_match (world : World) (file : Path)
    (content : string) :
  read_text world file = Some content ->
  let is_test := PyStr.contains "test" (PyStr.lower (stem file)) in
  let is_api :=
    PyStr.contains_any ["fastapi"; "flask"; "django"] (PyStr.lower content) in
  let is_model := PyStr.contains "model" (PyStr.lower (stem file)) in
  exists kind,
    _detect_component_type world file = Ok kind
    /\ (kind = "test" <-> is_test = true)
    /\ (kind = "api" <-> is_test = false /\ is_api = true)
    /\ (kind = "model" <-> is_test = false /\ is_api = false /\ is_model = true)
    /\ (kind = "module"
        <-> is_test = false /\ is_api = false /\ is_model = false).
Proof.
  intros Hread is_test is_api is_model.
  unfold _detect_component_type, read. rewrite Hread. simpl.
  fold is_test is_model.
  change (PyStr.contains "fastapi" (PyStr.lower content)
          || (PyStr.contains "flask" (PyStr.lower content)
              || (PyStr.contains "django" (PyStr.lower content) || false)))
    with is_api.
  destruct is_test, is_api, is_model; eexists; (split; [reflexivity|]);
    repeat split; try discriminate; try tauto;
    intros H; decompose [and] H; discriminate.
Qed.

Lemma detect_component_type_first_match_witness :
  exists kind,
    _detect_component_type Demo.world Demo.test_core_py = Ok kind
    /\ kind = "test".
Proof.
  destruct (detect_component_type_first_match Demo.world Demo.test_core_py _
              eq_refl) as (kind & Hkind & Htest & _).
  exists kind. split; [exact Hkind|]. now apply Htest.
Defined.

(** *** The analysis loop *)

Lemma analyze_loop_app (world : World) (l1 l2 : list Path)
    (cs : PyDict.dict Component) :
  analyze_loop world (l1 ++ l2) cs
  = match analyze_loop world l1 cs with
    | (cs1, Ok _) => analyze_loop world l2 cs1
    | (cs1, Raise e) => (cs1, Raise e)
    end.
Proof.
  revert cs. induction l1 as [|f l1 IH]; intros cs; [reflexivity|].
  simpl. destruct (PyStr.contains "test" _); [apply IH|].
  destruct (analyze_file world f); [apply IH | reflexivity].
Qed.

(** X6: the first file whose analysis raises ends the run with that
    exception: the entries of the files before it stay stored, and the
    files after it are not analyzed. *)
Theorem analyze_stops_at_first_error (world : World)
    (self : ArchitectureAnalyzer) (before after : list Path) (bad : Path)
    (cs : PyDict.dict Component) (e : exn) :
  rglob_py world (repo_path self) = before ++ bad :: after ->
  analyze_loop world before (components self) = (cs, Ok tt) ->
  PyStr.contains "test" (PyStr.lower (stem bad)) = false ->
  analyze_file world bad = Raise e ->
  analyze world self = (set_components self cs, Raise e).
Proof.
  intros Hfiles Hbefore Htest Hbad. unfold analyze.
  rewrite Hfiles, analyze_loop_app, Hbefore. simpl.
  now rewrite Htest, Hbad.
Qed.

Lemma dict_get_set_same {V} (d : PyDict.dict V) (k : string) (v : V) :
  dict_get (PyDict.set d k v) k = Some v.
Proof.
  induction d as [|[k' v'] d IH]; simpl.
  - now rewrite String.eqb_refl.
  - destruct (String.eqb k' k) eqn:E; simpl.
    + now rewrite String.eqb_refl.
    + now rewrite E.
Qed.

Lemma dict_get_set_other {V} (d : PyDict.dict V) (k k' : string) (v : V) :
  k' <> k -> dict_get (PyDict.set d k' v) k = dict_get d k.
Proof.
  intros Hk. induction d as [|[k0 v0] d IH]; simpl.
  - destruct (String.eqb_spec k' k); [contradiction | reflexivity].
  - destruct (String.eqb_spec k0 k') as [->|]; simpl.
    + destruct (String.eqb_spec k' k); [contradiction | reflexivity].
    + destruct (String.eqb k0 k); [reflexivity | exact IH].
Qed.

Lemma analyze_loop_keeps_other (world : World) (files : list Path)
    (cs : PyDict.dict Component) (k : string) :
  (forall g, In g files ->
             PyStr.contains "test" (PyStr.lower (stem g)) = false ->
             stem g <> k) ->
  dict_get (fst (analyze_loop world files cs)) k = dict_get cs k.
Proof.
  revert cs. induction files as [|f files IH]; intros cs Hother; [reflexivity|].
  simpl. destruct (PyStr.contains "test" _) eqn:Htest.
  - apply IH. intros g Hg. apply Hother. now right.
  - destruct (analyze_file world f) as [c|e]; [|reflexivity].
    rewrite IH.
    + apply dict_get_set_other. apply Hother; [now left | exact Htest].
    + intros g Hg. apply Hother. now right.
Qed.

(** X7: records are keyed by stem and the last one wins: after a run, the
    map binds the stem of an analyzed file to that file's record when no
    later analyzed file has the same stem, whatever files of that stem came
    before it. *)
Theorem analyze_last_stem_wins (world : World) (self : ArchitectureAnalyzer)
    (before after : list Path) (file : Path) (c : Component) :
  rglob_py world (repo_path self) = before ++ file :: after ->
  snd (analyze_loop world before (components self)) = Ok tt ->
  PyStr.contains "test" (PyStr.lower (stem file)) = false ->
  analyze_file world file = Ok c ->
  (forall g, In g after ->
             PyStr.contains "test" (PyStr.lower (stem g)) = false ->
             stem g <> stem file) ->
  dict_get (components (fst (analyze world self))) (stem file) = Some c.
Proof.
  intros Hfiles Hbefore Htest Hfile Hafter.
  rewrite analyze_components, Hfiles, analyze_loop_app.
  destruct (analyze_loop world before (components self)) as [cs1 r].
  simpl in Hbefore. subst r. simpl. rewrite Htest, Hfile.
  rewrite (analyze_loop_keeps_other world after _ (stem file) Hafter).
  apply dict_get_set_same.
Qed.

Lemma analyze_stops_at_first_error_witness :
  analyze Demo2.world Demo2.analyzer
  = (set_components Demo2.analyzer [("utils", Demo2.record Demo2.utils_b)],
     Raise OSError).
Proof.
  apply (analyze_stops_at_first_error Demo2.world Demo2.analyzer
           [Demo2.utils_a; Demo2.utils_b] [Demo.core_py] Demo2.broken);
    reflexivity.
Defined.

Lemma analyze_last_stem_wins_witness :
  dict_get (components (fst (analyze Demo2.world Demo2.analyzer))) "utils"
  = Some (Demo2.record Demo2.utils_b).
Proof.
  apply (analyze_last_stem_wins Demo2.world Demo2.analyzer
           [Demo2.utils_a] [Demo2.broken; Demo.core_py] Demo2.utils_b);
    try reflexivity.
  intros g [<- | [<- | []]] _; discriminate.
Defined.

(** *** Invariants of the component map *)

Lemma dict_set_Forall {V} (P : string * V -> Prop) (d : PyDict.dict V)
    (k : string) (v : V) :
  Forall P d -> P (k, v) -> Forall P (PyDict.set d k v).
Proof.
  intros Hd Hv. induction d as [|[k' v'] d IH]; simpl.
  - constructor; [exact Hv | constructor].
  - inversion Hd as [|? ? Hv' Hd']; subst.
    destruct (String.eqb k' k); constructor; auto.
Qed.

Lemma dict_set_keys {V} (d : PyDict.dict V) (k : string) (v : V) :
  PyDict.keys (PyDict.set d k v)
  = if PyDict.contains k d then PyDict.keys d else PyDict.keys d ++ [k].
Proof.
  unfold PyDict.contains, PyDict.keys.
  induction d as [|[k' v'] d IH]; simpl; [reflexivity|].
  destruct (String.eqb_spec k' k) as [->|]; simpl; [reflexivity|].
  rewrite IH. now destruct (existsb _ d).
Qed.

Lemma dict_set_NoDup {V} (d : PyDict.dict V) (k : string) (v : V) :
  NoDup (PyDict.keys d) -> NoDup (PyDict.keys (PyDict.set d k v)).
Proof.
  intros Hd. rewrite dict_set_keys.
  destruct (PyDict.contains k d) eqn:Hk; [exact Hd|].
  apply NoDup_app; [exact Hd | repeat constructor; intros [] |].
  intros x Hx [<- | []]. apply dict_contains_keys in Hx. congruence.
Qed.

(** What every stored file keeps true of the map holds after the loop. *)
Lemma analyze_loop_invariant (world : World)
    (I : PyDict.dict Component -> Prop) :
  (forall cs file c,
      I cs ->
      PyStr.contains "test" (PyStr.lower (stem file)) = false ->
      analyze_file world file = Ok c ->
      I (PyDict.set cs (stem file) c)) ->
  forall files cs, I cs -> I (fst (analyze_loop world files cs)).
Proof.
  intros Hstep. induction files as [|file rest IH]; intros cs Hcs; [exact Hcs|].
  simpl. destruct (PyStr.contains "test" _) eqn:Htest; [now apply IH|].
  destruct (analyze_file world file) as [c|e] eqn:Hfile; [|exact Hcs].
  apply IH. now apply Hstep.
Qed.

Lemma reachable_invariant (world : World)
    (I : PyDict.dict Component -> Prop) :
  I [] ->
  (forall cs file c,
      I cs ->
      PyStr.contains "test" (PyStr.lower (stem file)) = false ->
      analyze_file world file = Ok c ->
      I (PyDict.set cs (stem file) c)) ->
  forall self, reachable world self -> I (components self).
Proof.
  intros Hnil Hstep self Hreach.
  induction Hreach as [url lp effects self Hinit | self _ IH | self _ IH].
  - unfold __init__ in Hinit.
    destruct (truthy_opt url); [destruct (clone_from _ _ _)|
                                 destruct (truthy_opt lp)];
      try discriminate Hinit; injection Hinit as _ <-; exact Hnil.
  - rewrite analyze_components. now apply analyze_loop_invariant.
  - rewrite generate_mermaid_components.
    destruct (PyDict.is_empty _); [|exact IH].
    rewrite analyze_components. now apply analyze_loop_invariant.
Qed.

(** X8: in every analyzer the program can hold, each entry of the
    component map is keyed by the name of its record, no key contains test
    in any letter case, and no key occurs twice. *)
Theorem component_map_keys (world : World) (self : ArchitectureAnalyzer) :
  reachable world self ->
  Forall entry_ok (components self)
  /\ NoDup (PyDict.keys (components self)).
Proof.
  apply (reachable_invariant world
           (fun cs => Forall entry_ok cs /\ NoDup (PyDict.keys cs))).
  - split; constructor.
  - intros cs file c [Hok Hnd] Htest Hfile. split.
    + apply dict_set_Forall; [exact Hok|]. split; [|exact Htest].
      now destruct (analyze_file_type world file c Hfile) as (_ & Hname & _).
    + now apply dict_set_NoDup.
Qed.

Lemma component_map_keys_witness :
  Forall entry_ok (components (fst (analyze Demo2.world Demo2.analyzer)))
  /\ NoDup (PyDict.keys (components (fst (analyze Demo2.world Demo2.analyzer)))).
Proof.
  apply (component_map_keys Demo2.world).
  apply reach_analyze.
  apply (reach_init Demo2.world None (Some "repo2") [DockerFromEnv]).
  reflexivity.
Defined.

(** *** Running the analysis again *)

(** A run that returns made the assignments of a list of pairs that does
    not depend on the map it started from. *)
Lemma analyze_loop_set_all (world : World) (files : list Path)
    (cs cs' : PyDict.dict Component) :
  analyze_loop world files cs = (cs', Ok tt) ->
  exists l, forall cs0, analyze_loop world files cs0 = (set_all l cs0, Ok tt).
Proof.
  revert cs. induction files as [|file rest IH]; intros cs H.
  - exists []. reflexivity.
  - simpl in H. destruct (PyStr.contains "test" _) eqn:Htest.
    + destruct (IH _ H) as (l & Hl). exists l. intros cs0. simpl.
      now rewrite Htest.
    + destruct (analyze_file world file) as [c|e] eqn:Hfile;
        [|discriminate H].
      destruct (IH _ H) as (l & Hl). exists ((stem file, c) :: l).
      intros cs0. simpl. now rewrite Htest, Hfile, Hl.
Qed.

Lemma last_binding_None {V} (l : list (string * V)) (k : string) :
  last_binding l k = None <-> ~ In k (map fst l).
Proof.
  induction l as [|[k' v] l IH]; simpl; [tauto|].
  destruct (last_binding l k) as [w|].
  - split; [discriminate|]. intros H. exfalso. destruct IH as [_ IH].
    assert (Hn : ~ In k (map fst l)) by tauto. specialize (IH Hn).
    discriminate IH.
  - destruct (String.eqb_spec k' k) as [->|Hk].
    + split; [discriminate | tauto].
    + split; [|reflexivity]. intros _ [E | H]; [contradiction|].
      now apply IH.
Qed.

Lemma rebind_single {V} (k k' : string) (v v' : V) :
  rebind [(k, v)] (k', v') = (k', if String.eqb k k' then v else v').
Proof. unfold rebind. simpl. now destruct (String.eqb k k'). Qed.

Lemma rebind_absent {V} (d : PyDict.dict V) (k : string) (v : V) :
  ~ In k (map fst d) -> map (rebind [(k, v)]) d = d.
Proof.
  induction d as [|[k' v'] d IH]; intros Hk; [reflexivity|].
  simpl in Hk. cbn [map]. rewrite rebind_single.
  destruct (String.eqb_spec k k') as [->|]; [tauto|].
  f_equal. apply IH. tauto.
Qed.

Lemma set_present_map {V} (d : PyDict.dict V) (k : string) (v : V) :
  NoDup (PyDict.keys d) -> In k (PyDict.keys d) ->
  PyDict.set d k v = map (rebind [(k, v)]) d.
Proof.
  unfold PyDict.keys.
  induction d as [|[k' v'] d IH]; intros Hnd Hin; [contradiction|].
  simpl in Hnd. inversion Hnd as [|? ? Hk' Hd]; subst.
  cbn [PyDict.set map]. rewrite rebind_single, (String.eqb_sym k k').
  destruct (String.eqb_spec k' k) as [->|Hk].
  - f_equal. symmetry. now apply rebind_absent.
  - f_equal. apply IH; [exact Hd|].
    destruct Hin as [E | Hin]; [simpl in E; congruence | exact Hin].
Qed.

Lemma rebind_keys {V} (l : list (string * V)) (d : PyDict.dict V) :
  PyDict.keys (map (rebind l) d) = PyDict.keys d.
Proof.
  unfold PyDict.keys. rewrite map_map. reflexivity.
Qed.

(** When every key assigned is already present, the assignments change the
    values in place. *)
Lemma set_all_map {V} (l : list (string * V)) (d : PyDict.dict V) :
  NoDup (PyDict.keys d) ->
  (forall kv, In kv l -> In (fst kv) (PyDict.keys d)) ->
  set_all l d = map (rebind l) d.
Proof.
  revert d. induction l as [|[k v] l IH]; intros d Hnd Hin.
  - simpl. rewrite <- (map_id d) at 1. apply map_ext. now intros [k v].
  - cbn [set_all fold_left fst snd]. fold (set_all l (PyDict.set d k v)).
    rewrite set_present_map; [|exact Hnd | apply (Hin (k, v)); now left].
    rewrite IH.
    + rewrite map_map. apply map_ext. intros [k' v'].
      unfold rebind. cbn [fst snd last_binding].
      destruct (last_binding l k'); [reflexivity|].
      now destruct (String.eqb k k').
    + now rewrite rebind_keys.
    + intros kv Hkv. rewrite rebind_keys. apply Hin. now right.
Qed.

Lemma set_all_NoDup {V} (l : list (string * V)) (d : PyDict.dict V) :
  NoDup (PyDict.keys d) -> NoDup (PyDict.keys (set_all l d)).
Proof.
  revert d. induction l as [|[k v] l IH]; intros d Hnd; [exact Hnd|].
  apply IH. now apply dict_set_NoDup.
Qed.

Lemma set_all_keys {V} (l : list (string * V)) (d : PyDict.dict V) (k : string) :
  In k (PyDict.keys d) \/ In k (map fst l) -> In k (PyDict.keys (set_all l d)).
Proof.
  revert d. induction l as [|[k0 v0] l IH]; intros d H.
  - destruct H as [H | []]. exact H.
  - apply IH. cbn [fst snd]. rewrite dict_set_keys.
    destruct (PyDict.contains k0 d) eqn:Hc.
    + destruct H as [H | [<- | H]]; auto.
      left. now apply dict_contains_keys.
    + rewrite in_app_iff. simpl. destruct H as [H | [<- | H]]; auto.
Qed.

Lemma in_set_other {V} (d : PyDict.dict V) (k k' : string) (v v' : V) :
  k <> k' -> In (k', v') (PyDict.set d k v) -> In (k', v') d.
Proof.
  intros Hk. induction d as [|[k0 v0] d IH]; simpl.
  - intros [E | []]. congruence.
  - destruct (String.eqb_spec k0 k) as [->|].
    + intros [E | H]; [congruence | now right].
    + intros [E | H]; [now left | right; now apply IH].
Qed.

Lemma in_set_same {V} (d : PyDict.dict V) (k : string) (v v' : V) :
  NoDup (PyDict.keys d) -> In (k, v') (PyDict.set d k v) -> v' = v.
Proof.
  unfold PyDict.keys. induction d as [|[k0 v0] d IH]; simpl; intros Hnd H.
  - destruct H as [E | []]. congruence.
  - inversion Hnd as [|? ? Hk0 Hd]; subst.
    destruct (String.eqb_spec k0 k) as [->|Hk].
    + destruct H as [E | H]; [congruence|].
      exfalso. apply Hk0. apply in_map_iff. now exists (k, v').
    + destruct H as [E | H]; [congruence | now apply IH].
Qed.

Lemma set_all_untouched {V} (l : list (string * V)) (d : PyDict.dict V)
    (k : string) (v : V) :
  ~ In k (map fst l) -> In (k, v) (set_all l d) -> In (k, v) d.
Proof.
  revert d. induction l as [|[k0 v0] l IH]; intros d Hk H; [exact H|].
  simpl in Hk. apply IH in H; [|tauto].
  apply in_set_other in H; [exact H | tauto].
Qed.

(** After the assignments, a key that was assigned holds its last value. *)
Lemma set_all_last {V} (l : list (string * V)) (d : PyDict.dict V)
    (k : string) (v w : V) :
  NoDup (PyDict.keys d) ->
  In (k, v) (set_all l d) -> last_binding l k = Some w -> v = w.
Proof.
  revert d. induction l as [|[k0 v0] l IH]; intros d Hnd Hin Hlast;
    [discriminate Hlast|].
  cbn [set_all fold_left fst snd] in Hin. fold (set_all l (PyDict.set d k0 v0)) in Hin.
  cbn [last_binding] in Hlast.
  destruct (last_binding l k) as [w0|] eqn:Hl.
  - injection Hlast as <-.
    apply (IH (PyDict.set d k0 v0)); [now apply dict_set_NoDup | exact Hin | reflexivity].
  - destruct (String.eqb_spec k0 k) as [->|]; [|discriminate Hlast].
    injection Hlast as <-.
    apply set_all_untouched in Hin; [|now apply last_binding_None].
    now apply (in_set_same d k).
Qed.

Lemma set_all_twice {V} (l : list (string * V)) (d : PyDict.dict V) :
  NoDup (PyDict.keys d) -> set_all l (set_all l d) = set_all l d.
Proof.
  intros Hnd. rewrite (set_all_map l (set_all l d)).
  - rewrite <- (map_id (set_all l d)) at 2.
    apply map_ext_in. intros [k v] Hin. unfold rebind. cbn [fst snd].
    destruct (last_binding l k) as [w|] eqn:Hl; [|reflexivity].
    now rewrite (set_all_last l d k v w Hnd Hin Hl).
  - now apply set_all_NoDup.
  - intros kv Hkv. apply set_all_keys. right. now apply in_map.
Qed.

(** X9: analysis is repeatable: when a run of [analyze] returns, running
    it again on the unchanged repository returns too and leaves the
    component map, entries and order, as the first run left it. *)
Theorem analyze_twice (world : World) (self self1 : ArchitectureAnalyzer) :
  NoDup (PyDict.keys (components self)) ->
  analyze world self = (self1, Ok tt) ->
  analyze world self1 = (self1, Ok tt).
Proof.
  intros Hnd Hrun. unfold analyze in *.
  destruct (analyze_loop world (rglob_py world (repo_path self))
              (components self)) as [cs1 r] eqn:Hloop.
  injection Hrun as <- ->.
  destruct (analyze_loop_set_all _ _ _ _ Hloop) as (l & Hl).
  rewrite Hl in Hloop. injection Hloop as <-.
  cbn [repo_path components set_components]. rewrite Hl.
  rewrite set_all_twice by exact Hnd.
  unfold set_components. reflexivity.
Qed.

Lemma analyze_twice_witness :
  analyze Demo.world (fst (analyze Demo.world (Demo.analyzer [])))
  = (fst (analyze Demo.world (Demo.analyzer [])), Ok tt).
Proof.
  apply (analyze_twice Demo.world (Demo.analyzer [])).
  - constructor.
  - reflexivity.
Defined.

(** *** When rendering fails *)

Lemma node_lines_raise (comps : list Component) :
  Exists (fun c => performance c = None) comps ->
  mapM node_line comps = Raise AttributeError.
Proof.
  induction 1 as [c comps Hc | c comps _ IH]; simpl.
  - unfold node_line at 1. now rewrite Hc.
  - unfold node_line at 1. destruct (performance c); [|reflexivity].
    simpl. now rewrite IH.
Qed.

Lemma layer_block_raise (layer : string) (comps : list Component) :
  Exists (fun c => performance c = None) comps ->
  layer_block (layer, comps) = Raise AttributeError.
Proof.
  intros H. unfold layer_block. rewrite (node_lines_raise comps H).
  destruct comps; [inversion H | reflexivity].
Qed.

Lemma node_lines_cases (comps : list Component) :
  (exists nodes, mapM node_line comps = Ok nodes
                 /\ List.length nodes = List.length comps)
  \/ mapM node_line comps = Raise AttributeError.
Proof.
  assert (Hline : forall c e, node_line c = Raise e -> e = AttributeError).
  { intros c e. unfold node_line. destruct (performance c); [discriminate|].
    intros H. now injection H as <-. }
  induction comps as [|c comps [(nodes & Hn & Hlen) | Hr]]; cbn [mapM].
  - left. now exists [].
  - destruct (node_line c) as [l|e] eqn:E;
      [|right; now rewrite (Hline c e E)].
    cbn [bind]. rewrite Hn. left. eexists. split; [reflexivity|].
    simpl. now rewrite Hlen.
  - destruct (node_line c) as [l|e] eqn:E;
      [|right; now rewrite (Hline c e E)].
    cbn [bind]. rewrite Hr. now right.
Qed.

Lemma layer_block_cases (layer : string) (comps : list Component) :
  (exists block, layer_block (layer, comps) = Ok block
                 /\ List.length block = block_length comps)
  \/ layer_block (layer, comps) = Raise AttributeError.
Proof.
  destruct comps as [|c comps]; [left; now exists []|].
  unfold layer_block.
  destruct (node_lines_cases (c :: comps)) as [(nodes & Hn & Hlen) | Hr].
  - rewrite Hn. left. eexists. split; [reflexivity|].
    cbn [bind List.length block_length]. rewrite length_app, Hlen. simpl. lia.
  - rewrite Hr. now right.
Qed.

(** X10: rendering looks only at the performance record of the components
    that belong to a layer: it returns when each of them has one, and raises
    [AttributeError] when one of them has none; records outside every layer
    are not inspected. *)
Theorem mermaid_lines_needs_layer_performance (cs : PyDict.dict Component) :
  (Forall (fun c => performance c <> None) (rendered_nodes cs) ->
   exists lines, mermaid_lines cs = Ok lines)
  /\ (Exists (fun c => performance c = None) (rendered_nodes cs) ->
      mermaid_lines cs = Raise AttributeError).
Proof.
  unfold rendered_nodes, mermaid_lines, layers. cbn [flat_map snd mapM].
  rewrite app_nil_r. split.
  - intros H. apply Forall_app in H as [H1 H]. apply Forall_app in H as [H2 H3].
    destruct (layer_block_ok "Client" _ eq_refl H1) as (b1 & ? & Hb1 & _).
    destruct (layer_block_ok "API" _ eq_refl H2) as (b2 & ? & Hb2 & _).
    destruct (layer_block_ok "Core" _ eq_refl H3) as (b3 & ? & Hb3 & _).
    rewrite Hb1, Hb2, Hb3. simpl. eexists. reflexivity.
  - intros H. apply Exists_app in H as [H | H];
      [now rewrite (layer_block_raise _ _ H)|].
    destruct (layer_block_cases "Client"
                (filter in_client_layer (PyDict.values cs)))
      as [(b1 & -> & _) | ->]; [|reflexivity].
    cbn [bind]. apply Exists_app in H as [H | H];
      [now rewrite (layer_block_raise _ _ H)|].
    destruct (layer_block_cases "API"
                (filter in_api_layer (PyDict.values cs)))
      as [(b2 & -> & _) | ->]; [|reflexivity].
    cbn [bind]. now rewrite (layer_block_raise _ _ H).
Qed.

Lemma mermaid_lines_needs_layer_performance_witness :
  (exists lines,
      mermaid_lines [("utils", new_Component "utils" "module"
                                 (mkPath "utils.py" "utils") [])]
      = Ok lines)
  /\ mermaid_lines [("core", new_Component "core" "module"
                               (mkPath "core.py" "core") [])]
     = Raise AttributeError.
Proof.
  split.
  - apply (proj1 (mermaid_lines_needs_layer_performance _)). constructor.
  - apply (proj2 (mermaid_lines_needs_layer_performance _)).
    apply Exists_cons_hd. reflexivity.
Defined.



(** *** Rendering after the analysis *)







(** *** Teardown *)

Lemma analyze_temp_dir (world : World) (self : ArchitectureAnalyzer) :
  temp_dir (fst (analyze world self)) = temp_dir self.
Proof. unfold analyze. now destruct (analyze_loop _ _ _). Qed.

Lemma generate_mermaid_temp_dir (world : World) (self : ArchitectureAnalyzer) :
  temp_dir (fst (generate_mermaid world self)) = temp_dir self.
Proof.
  rewrite generate_mermaid_components.
  destruct (PyDict.is_empty _); [apply analyze_temp_dir | reflexivity].
Qed.

Lemma run_passes_temp_dir (world : World) (passes : list bool)
    (self : ArchitectureAnalyzer) :
  temp_dir (run_passes world passes self) = temp_dir self.
Proof.
  revert self. induction passes as [|[|] passes IH]; intros self; simpl;
    [reflexivity | |]; rewrite IH.
  - apply analyze_temp_dir.
  - apply generate_mermaid_temp_dir.
Qed.

(** X13: teardown removes the temporary clone and nothing else: after any
    passes over an analyzer built from a repository URL, [__del__] removes
    the directory made by [mkdtemp]; over an analyzer built from a local
    path it removes nothing, so the user's directory is never deleted. *)
Theorem del_removes_only_the_clone (world : World)
    (repo_url local_path : option string) (effects : list effect)
    (self : ArchitectureAnalyzer) (passes : list bool) :
  __init__ world repo_url local_path = (effects, Ok self) ->
  __del__ (run_passes world passes self)
  = if truthy_opt repo_url && PyStr.truthy (mkdtemp world)
    then [Rmtree (mkdtemp world)] else [].
Proof.
  intros Hinit. unfold __del__. rewrite run_passes_temp_dir.
  unfold __init__ in Hinit. destruct (truthy_opt repo_url).
  - destruct (clone_from _ _ _); [|discriminate Hinit].
    injection Hinit as _ <-. reflexivity.
  - destruct (truthy_opt local_path); [|discriminate Hinit].
    injection Hinit as _ <-. reflexivity.
Qed.

Lemma del_removes_only_the_clone_witness :
  __del__ (run_passes Demo.world [true; false; true] (Demo.analyzer [])) = []
  /\ __del__ (run_passes Demo.world [false]
                (init_fields Demo.world "/tmp/tmpclone" (Some "/tmp/tmpclone")))
     = [Rmtree "/tmp/tmpclone"].
Proof.
  split.
  - apply (del_removes_only_the_clone Demo.world None (Some "repo")
             [DockerFromEnv]). reflexivity.
  - apply (del_removes_only_the_clone Demo.world (Some "https://host/repo.git")
             None
             [Mkdtemp "/tmp/tmpclone";
              CloneFrom "https://host/repo.git" "/tmp/tmpclone";
              DockerFromEnv]).
    reflexivity.
Defined.

(** *** The command line *)




(** X15: a command that succeeds puts its result in exactly one place: with
    a non-empty output path the result is written to that file and only the
    notice is echoed; otherwise the result is echoed.  For [json] the result
    is the dump of an empty component map, for [mermaid] it is what
    [generate_mermaid] returned for the new analyzer. *)
Theorem cli_success_output (world : World) (target : string)
    (output : option string) (format : Cli.Format) (effects : list effect) :
  Cli.analyze world target output format = (effects, Ok tt) ->
  exists setup analyzer result,
    __init__ world
      (if Cli.is_url target then Some target else None)
      (if negb (Cli.is_url target) then Some target else None)
    = (setup, Ok analyzer)
    /\ effects
       = setup ++
         (if truthy_opt output
          then [WriteText (str_or_empty output) result;
                Echo ("Output written to " ++ str_or_empty output)]
          else [Echo result])
    /\ match format with
       | Cli.mermaid => snd (generate_mermaid world analyzer) = Ok result
       | Cli.json =>
           result = json_dumps world (VDict [("components", VDict [])])
       end.
Proof.
  unfold Cli.analyze. intros H.
  destruct (__init__ world _ _) as [setup [analyzer|e0]] eqn:Hinit;
    [|discriminate H].
  assert (Hcs : components analyzer = []).
  { unfold __init__ in Hinit.
    destruct (truthy_opt _); [destruct (clone_from _ _ _)|
                               destruct (truthy_opt _)];
      try discriminate Hinit; now injection Hinit as _ <-. }
  exists setup, analyzer.
  destruct format.
  - destruct (snd (generate_mermaid world analyzer)) as [result|e1];
      [|discriminate H].
    exists result. split; [reflexivity|]. split; [|reflexivity].
    destruct output as [file|]; simpl; [destruct (PyStr.truthy file)|];
      now injection H as <-.
  - eexists. split; [reflexivity|]. split.
    + destruct output as [file|]; simpl; [destruct (PyStr.truthy file)|];
        injection H as <-; reflexivity.
    + unfold Cli.json_object. now rewrite Hcs.
Qed.

Lemma cli_success_output_witness :
  exists setup result,
    fst (Cli.analyze Demo.world "repo" (Some "out.mmd") Cli.mermaid)
    = setup ++ [WriteText "out.mmd" result; Echo "Output written to out.mmd"].
Proof.
  destruct (cli_success_output Demo.world "repo" (Some "out.mmd") Cli.mermaid
              (fst (Cli.analyze Demo.world "repo" (Some "out.mmd") Cli.mermaid))
              eq_refl)
    as (setup & analyzer & result & _ & Heff & _).
  exists setup, result. exact Heff.
Defined.


(** *** The container analyzer *)

(** X17: [analyze_docker] removes an image exactly when it has built one,
    whether or not reading the history then succeeded, and the removal is
    its last call; without a Dockerfile it returns no layer and calls the
    engine not at all, even when no client is connected; with a Dockerfile
    and no client it raises before any call. *)
Theorem analyze_docker_cleanup (env : DockerEnv) (self : ArchitectureAnalyzer) :
  (forall id,
      In (ImagesRemove id) (fst (analyze_docker env self))
      <-> dockerfile_exists env (repo_path self) = true
          /\ docker_client self <> None
          /\ exists image,
               images_build env (repo_path self) = Some image
               /\ image_id image = id)
  /\ (forall image,
         dockerfile_exists env (repo_path self) = true ->
         docker_client self <> None ->
         images_build env (repo_path self) = Some image ->
         fst (analyze_docker env self)
         = [ImagesBuild (repo_path self); ImageHistory (image_id image);
            ImagesRemove (image_id image)])
  /\ (dockerfile_exists env (repo_path self) = false ->
      analyze_docker env self = ([], Layers []))
  /\ (dockerfile_exists env (repo_path self) = true ->
      docker_client self = None ->
      analyze_docker env self = ([], DockerRaise NoneTypeAttributeError)).
Proof.
  unfold analyze_docker, remove_then.
  destruct (dockerfile_exists env (repo_path self)) eqn:Hfile; cbn [negb].
  - destruct (docker_client self) as [client|] eqn:Hclient.
    + destruct (images_build env (repo_path self)) as [image|] eqn:Hbuild;
        cbn [fst]; (split; [|split; [|split]]); try discriminate.
      * intros id. split.
        -- intros [E | [E | [E | []]]]; try discriminate E.
           injection E as <-. repeat split; [discriminate|]. now exists image.
        -- intros (_ & _ & image' & E & <-). injection E as <-.
           right. right. now left.
      * intros image' _ _ E. now injection E as <-.
      * intros id. split.
        -- intros [E | []]. discriminate E.
        -- intros (_ & _ & image' & E & _). discriminate E.
    + cbn [fst]. (split; [|split; [|split]]); try discriminate.
      * intros id. split; [intros [] | intros (_ & H & _); now apply H].
      * intros image _ H. now contradiction H.
      * reflexivity.
  - cbn [fst]. (split; [|split; [|split]]); try discriminate.
    + intros id. split; [intros [] | intros (H & _); discriminate H].
    + reflexivity.
Qed.

Lemma analyze_docker_cleanup_witness :
  analyze_docker DemoDocker.env Demo2.analyzer
  = ([ImagesBuild "repo2"; ImageHistory "sha256:1f"; ImagesRemove "sha256:1f"],
     DockerRaise APIError)
  /\ analyze_docker DemoDocker.env (Demo.analyzer []) = ([], Layers []).
Proof.
  destruct (analyze_docker_cleanup DemoDocker.env Demo2.analyzer)
    as (_ & Hcalls & _).
  destruct (analyze_docker_cleanup DemoDocker.env (Demo.analyzer []))
    as (_ & _ & Hnone & _).
  split.
  - specialize (Hcalls DemoDocker.image eq_refl).
    rewrite (surjective_pairing (analyze_docker _ _)), Hcalls;
      [reflexivity | discriminate | reflexivity].
  - apply Hnone. reflexivity.
Defined.

(** *** Package names in build commands *)

Lemma take_while_all (p : ascii -> bool) (s : string) :
  all_chars p (PyRe.take_while p s) = true.
Proof.
  induction s as [|c s IH]; [reflexivity|]. simpl.
  destruct (p c) eqn:Hc; [|reflexivity]. simpl. now rewrite Hc.
Qed.

Lemma match_at_group (lit : string) (cls : ascii -> bool) (s group : string)
    (len : nat) :
  PyRe.match_at lit cls s = Some (group, len) ->
  group <> "" /\ all_chars cls group = true.
Proof.
  unfold PyRe.match_at. destruct (String.prefix lit s); [|discriminate].
  destruct (PyRe.take_while PyRe.is_space _); [discriminate|].
  destruct (PyRe.take_while cls _) as [|c g] eqn:Hg; [discriminate|].
  intros H. injection H as <- _. split; [discriminate|].
  rewrite <- Hg. apply take_while_all.
Qed.

Lemma findall_from_groups (lit : string) (cls : ascii -> bool) (s : string)
    (skip : nat) :
  Forall (fun g => g <> "" /\ all_chars cls g = true)
         (PyRe.findall_from lit cls skip s).
Proof.
  revert skip. induction s as [|c s IH]; intros skip; [constructor|].
  cbn [PyRe.findall_from]. destruct skip as [|k]; [|apply IH].
  destruct (PyRe.match_at lit cls (String c s)) as [[group len]|] eqn:Hm;
    [|apply IH].
  constructor; [|apply IH]. exact (match_at_group _ _ _ _ _ Hm).
Qed.

Lemma all_chars_weaken (p q : ascii -> bool) (s : string) :
  (forall c, p c = true -> q c = true) ->
  all_chars p s = true -> all_chars q s = true.
Proof.
  intros Hpq. induction s as [|c s IH]; [reflexivity|]. simpl.
  intros H. apply andb_prop in H as [Hc Hs]. now rewrite (Hpq c Hc), IH.
Qed.

Lemma apt_char_pip_char (c : ascii) :
  PyRe.apt_char c = true -> PyRe.pip_char c = true.
Proof.
  unfold PyRe.apt_char, PyRe.pip_char. destruct (PyStr.is_word c); [reflexivity|].
  simpl. intros ->. reflexivity.
Qed.

(** X18: every name extracted from a build command is a non-empty string of
    word characters, hyphens, dots and the comparison signs of a version
    pin; it holds no space, and no name is listed twice. *)
Theorem extract_docker_deps_names (command : string) :
  NoDup (_extract_docker_deps command)
  /\ forall d,
       In d (_extract_docker_deps command) ->
       d <> "" /\ all_chars PyRe.pip_char d = true
       /\ all_chars (fun c => negb (PyRe.is_space c)) d = true.
Proof.
  assert (Hspace : forall c, PyRe.pip_char c = true ->
                             negb (PyRe.is_space c) = true).
  { intros [[] [] [] [] [] [] [] []]; vm_compute; intros H;
      (reflexivity || discriminate H). }
  unfold _extract_docker_deps. split.
  - destruct (PyStr.contains "pip install" command),
      (PyStr.contains "apt-get install" command);
      repeat apply set_update_NoDup; constructor.
  - intros d Hd.
    assert (Hpip : d <> "" /\ all_chars PyRe.pip_char d = true).
    { pose proof (findall_from_groups "pip install" PyRe.pip_char command 0)
        as Hp.
      pose proof (findall_from_groups "apt-get install" PyRe.apt_char command 0)
        as Ha.
      rewrite Forall_forall in Hp, Ha. fold (PyRe.findall "pip install" PyRe.pip_char command) in Hp.
      fold (PyRe.findall "apt-get install" PyRe.apt_char command) in Ha.
      destruct (PyStr.contains "pip install" command),
        (PyStr.contains "apt-get install" command);
        repeat (apply set_update_In in Hd as [Hd | Hd]);
        try contradiction; try (now apply Hp).
      - destruct (Ha d Hd) as [Hne Hall]. split; [exact Hne|].
        exact (all_chars_weaken _ _ d apt_char_pip_char Hall).
      - destruct (Ha d Hd) as [Hne Hall]. split; [exact Hne|].
        exact (all_chars_weaken _ _ d apt_char_pip_char Hall). }
    destruct Hpip as [Hne Hall]. repeat split; try assumption.
    exact (all_chars_weaken _ _ d Hspace Hall).
Qed.

Lemma extract_docker_deps_names_witness :
  _extract_docker_deps
    "/bin/sh -c apt-get install -y curl && pip install  flask==2.0 requests"
  = ["flask==2.0"; "-y"]
  /\ all_chars PyRe.pip_char "flask==2.0" = true.
Proof.
  split; [reflexivity|].
  apply (proj2 (extract_docker_deps_names
    "/bin/sh -c apt-get install -y curl && pip install  flask==2.0 requests")).
  now left.
Defined.

Lemma append_assoc (a b c : string) :
  ((a ++ b) ++ c = a ++ (b ++ c))%string.
Proof. induction a as [|x a IH]; simpl; [reflexivity | now rewrite IH]. Qed.

Lemma append_length (a b : string) :
  String.length (a ++ b) = String.length a + String.length b.
Proof. induction a as [|x a IH]; simpl; [reflexivity | now rewrite IH]. Qed.

Lemma prefix_shorter (l a y : string) :
  String.prefix l (a ++ y) = true ->
  String.length l <= String.length a ->
  String.prefix l a = true.
Proof.
  revert a. induction l as [|x l IH]; intros a H Hlen; [now destruct a|].
  destruct a as [|c a]; [simpl in Hlen; lia|].
  simpl in *. destruct (ascii_dec x c); [|discriminate H].
  apply IH; [exact H | lia].
Qed.

Lemma take_drop_while_app (p : ascii -> bool) (a b : string) :
  all_chars p a = true -> stops p b = true ->
  PyRe.take_while p (a ++ b) = a /\ PyRe.drop_while p (a ++ b) = b.
Proof.
  intros Ha Hb. induction a as [|c a IH]; simpl.
  - destruct b as [|c b]; [split; reflexivity|]. simpl in *.
    apply negb_true_iff in Hb. rewrite Hb. split; reflexivity.
  - simpl in Ha. apply andb_prop in Ha as [Hc Ha]. rewrite Hc.
    destruct (IH Ha) as [-> ->]. split; reflexivity.
Qed.

(** Before the first occurrence of the literal no match starts. *)
Lemma findall_before_first (cls : ascii -> bool) (before rest : string) :
  PyStr.contains "pip install" (before ++ "pip instal") = false ->
  PyRe.findall_from "pip install" cls 0 (before ++ "pip install" ++ rest)
  = PyRe.findall_from "pip install" cls 0 ("pip install" ++ rest).
Proof.
  induction before as [|c before IH]; intros H; [reflexivity|].
  cbn [String.append PyStr.contains] in H.
  apply orb_false_elim in H as [Hhere Hlater].
  change ((String c before ++ "pip install" ++ rest)%string)
    with (String c (before ++ "pip install" ++ rest)%string).
  rewrite <- (IH Hlater).
  remember (before ++ "pip install" ++ rest)%string as tail eqn:Htail.
  cbn [PyRe.findall_from].
  assert (Hm : PyRe.match_at "pip install" cls (String c tail) = None).
  { unfold PyRe.match_at.
    destruct (String.prefix "pip install" (String c tail)) eqn:Hp;
      [|reflexivity].
    exfalso. subst tail.
    change (String c (before ++ "pip install" ++ rest))%string
      with (String c (before ++ ("pip instal" ++ ("l" ++ rest))))%string in Hp.
    rewrite <- append_assoc in Hp.
    change (String c ((before ++ "pip instal") ++ "l" ++ rest))%string
      with ((String c (before ++ "pip instal")) ++ ("l" ++ rest))%string in Hp.
    apply prefix_shorter in Hp; [congruence|].
    simpl. rewrite append_length. simpl. lia. }
  now rewrite Hm.
Qed.

Lemma drop_append (lit rest : string) :
  PyRe.drop (String.length lit) (lit ++ rest) = rest.
Proof.
  induction lit as [|c lit IH]; simpl; [now destruct rest | exact IH].
Qed.

(** A match of the whole pattern where the literal stands. *)
Lemma match_at_literal (lit : string) (cls : ascii -> bool)
    (spaces pkg rest : string) :
  spaces <> "" -> all_chars PyRe.is_space spaces = true ->
  pkg <> "" -> all_chars cls pkg = true ->
  stops PyRe.is_space (pkg ++ rest) = true ->
  stops cls rest = true ->
  PyRe.match_at lit cls (lit ++ spaces ++ pkg ++ rest)
  = Some (pkg, String.length lit + String.length spaces + String.length pkg).
Proof.
  intros Hsp Hspaces Hpk Hpkg Hstop Hrest. unfold PyRe.match_at.
  rewrite prefix_append, drop_append.
  destruct (take_drop_while_app PyRe.is_space spaces (pkg ++ rest)
              Hspaces Hstop) as [-> ->].
  destruct (take_drop_while_app cls pkg rest Hpkg Hrest) as [-> _].
  destruct spaces; [contradiction|]. destruct pkg; [contradiction|].
  reflexivity.
Qed.

Lemma findall_from_head (lit : string) (cls : ascii -> bool) (s group : string)
    (len : nat) :
  PyRe.match_at lit cls s = Some (group, len) ->
  In group (PyRe.findall_from lit cls 0 s).
Proof.
  intros Hm. destruct s as [|c s].
  - unfold PyRe.match_at in Hm. destruct lit; simpl in Hm; discriminate Hm.
  - cbn [PyRe.findall_from]. rewrite Hm. now left.
Qed.

(** X19: the package named right after the first [pip install] of a build
    command is extracted: when the command reads [pip install], spaces, a
    package name and then ends or goes on with a character that cannot be
    part of a name, the name is in the set. *)
Theorem extract_docker_deps_first_pip_package
    (before spaces pkg rest : string) :
  PyStr.contains "pip install" (before ++ "pip instal") = false ->
  spaces <> "" -> all_chars PyRe.is_space spaces = true ->
  pkg <> "" -> all_chars PyRe.pip_char pkg = true ->
  stops PyRe.pip_char rest = true ->
  In pkg (_extract_docker_deps
            (before ++ "pip install" ++ spaces ++ pkg ++ rest)).
Proof.
  intros Hfirst Hsp Hspaces Hpk Hpkg Hrest.
  assert (Hspace : forall c, PyRe.pip_char c = true ->
                             negb (PyRe.is_space c) = true).
  { intros [[] [] [] [] [] [] [] []]; vm_compute; intros H;
      (reflexivity || discriminate H). }
  assert (Hstop : stops PyRe.is_space (pkg ++ rest) = true).
  { destruct pkg as [|c pkg]; [contradiction|]. simpl in *.
    apply andb_prop in Hpkg as [Hc _]. now apply Hspace. }
  assert (Hin : In pkg (PyRe.findall "pip install" PyRe.pip_char
                          (before ++ "pip install" ++ spaces ++ pkg ++ rest))).
  { unfold PyRe.findall. rewrite findall_before_first by exact Hfirst.
    apply (findall_from_head _ _ _ _
             (String.length "pip install" + String.length spaces
              + String.length pkg)).
    now apply match_at_literal. }
  unfold _extract_docker_deps.
  replace (PyStr.contains "pip install"
             (before ++ "pip install" ++ spaces ++ pkg ++ rest))
    with true by (symmetry; apply contains_append).
  assert (Hpip : In pkg (set_update []
                           (PyRe.findall "pip install" PyRe.pip_char
                              (before ++ "pip install" ++ spaces ++ pkg ++ rest))))
    by (apply set_update_In; now right).
  destruct (PyStr.contains "apt-get install" _); [|exact Hpip].
  apply set_update_In. now left.
Qed.

Lemma extract_docker_deps_first_pip_package_witness :
  In "flask==2.0"
     (_extract_docker_deps "RUN pip install  flask==2.0 requests").
Proof.
  apply (extract_docker_deps_first_pip_package "RUN " "  " "flask==2.0"
           " requests"); (reflexivity || discriminate).
Defined.
